(** * Decoding of MIDI messages: [hardware/midi/midi.h]

    A shallow embedding of [MidiStreamParser<Device>] and the properties of
    its byte-at-a-time state machine.

    - [uint8_t] values are integers of [Z]; where the source can wrap
      ([data_size_++], the 16-bit pitch bend argument) the reduction is
      written out.
    - The calls the parser makes on its [Device] are recorded, in order, as a
      list of [call]s.  [Device::CheckChannel] is the only member whose
      result the parser uses; it is the one field of the [Device] class.
    - [data_] is a list of three bytes, read and written by index with
      stdpp's list lookup and insert.  A write outside [data_[0..2]] is
      undefined in the source; [PushByte] returns [None] there. *)

From Stdlib Require Import ZArith Lia.
From stdpp Require Import base list.

Open Scope Z_scope.

(** ** The device interface *)

(** One constructor per static member of [MidiDevice] that returns [void].
    The two overloads of [Aftertouch] get two names. *)
Inductive call : Type :=
  | NoteOn (channel note velocity : Z)
  | NoteOff (channel note velocity : Z)
  | Aftertouch (channel note velocity : Z)
  | AftertouchChannel (channel velocity : Z)
  | ControlChange (channel controller value : Z)
  | ProgramChange (channel program : Z)
  | PitchBend (channel pitch_bend : Z)
  | AllSoundOff (channel : Z)
  | ResetAllControllers (channel : Z)
  | LocalControl (channel state : Z)
  | AllNotesOff (channel : Z)
  | OmniModeOff (channel : Z)
  | OmniModeOn (channel : Z)
  | MonoModeOn (channel num_channels : Z)
  | PolyModeOn (channel : Z)
  | SysExStart
  | SysExByte (sysex_byte : Z)
  | SysExEnd
  | BozoByte (bozo_byte : Z)
  | Clock
  | Start
  | Continue
  | Stop
  | ActiveSensing
  | Reset.

(** The template parameter [Device].  [CheckChannel] returns a [uint8_t] that
    the parser tests against zero. *)
Class Device : Type := { CheckChannel : Z -> Z }.

(** [struct MidiDevice]: every channel is accepted. *)
Definition MidiDevice : Device := {| CheckChannel := fun _ => 1 |}.

(** A device tuned to one channel only. *)
Definition SingleChannelDevice (tuned : Z) : Device :=
  {| CheckChannel := fun channel => if channel =? tuned then 1 else 0 |}.

(** The channel a voice or mode call is addressed to. *)
Definition call_channel (c : call) : option Z :=
  match c with
  | NoteOn ch _ _ | NoteOff ch _ _ | Aftertouch ch _ _
  | AftertouchChannel ch _ | ControlChange ch _ _ | ProgramChange ch _
  | PitchBend ch _ | AllSoundOff ch | ResetAllControllers ch
  | LocalControl ch _ | AllNotesOff ch | OmniModeOff ch | OmniModeOn ch
  | MonoModeOn ch _ | PolyModeOn ch => Some ch
  | _ => None
  end.

(** ** The parser state *)

Record MidiStreamParser : Type := mkParser {
  running_status_ : Z;
  data_ : list Z;
  data_size_ : Z;
  expected_data_size_ : Z
}.

(** The constructor sets the three scalar fields and leaves [data_]
    uninitialised: its three bytes are whatever [g0 g1 g2] the memory held. *)
Definition new_parser (g0 g1 g2 : Z) : MidiStreamParser :=
  {| running_status_ := 0;
     data_ := [g0; g1; g2];
     data_size_ := 0;
     expected_data_size_ := 0 |}.

Definition is_byte (b : Z) : Prop := 0 <= b < 256.

(** [data_[i]] for the constant indices the source reads. *)
Definition data_at (p : MidiStreamParser) (i : nat) : Z :=
  default 0 (data_ p !! i).

(** [data_[i] = byte]: defined inside the array only. *)
Definition data_store (d : list Z) (i : Z) (byte : Z) : option (list Z) :=
  if (0 <=? i) && (i <? Z.of_nat (length d))
  then Some (<[Z.to_nat i := byte]> d)
  else None.

Section Parser.

Context {D : Device}.

(** ** [MessageReceived] (lines 155-270) *)

(** The inner switch of [case 0xb0]. *)
Definition control_change (lo d0 d1 : Z) : list call :=
  if d0 =? 0x78 then [AllSoundOff lo]
  else if d0 =? 0x79 then [ResetAllControllers lo]
  else if d0 =? 0x7a then [LocalControl lo d1]
  else if d0 =? 0x7b then [AllNotesOff lo]
  else if d0 =? 0x7c then [OmniModeOff lo]
  else if d0 =? 0x7d then [OmniModeOn lo]
  else if d0 =? 0x7e then [MonoModeOn lo d1]
  else if d0 =? 0x7f then [PolyModeOn lo]
  else [ControlChange lo d0 d1].

(** The inner switch of [case 0xf0]; [0xd] has no case. *)
Definition system_message (lo d0 : Z) : list call :=
  if lo =? 0x0 then [SysExByte d0]
  else if (1 <=? lo) && (lo <=? 6) then []
  else if lo =? 0x7 then [SysExEnd]
  else if lo =? 0x8 then [Clock]
  else if lo =? 0x9 then []
  else if lo =? 0xa then [Start]
  else if lo =? 0xb then [Continue]
  else if lo =? 0xc then [Stop]
  else if lo =? 0xe then [ActiveSensing]
  else if lo =? 0xf then [Reset]
  else [].

(** The outer [switch (hi)]. *)
Definition dispatch (hi lo d0 d1 : Z) : list call :=
  if hi =? 0x80 then [NoteOff lo d0 d1]
  else if hi =? 0x90 then
    (if negb (d1 =? 0) then [NoteOn lo d0 d1] else [NoteOff lo d0 0])
  else if hi =? 0xa0 then [Aftertouch lo d0 d1]
  else if hi =? 0xb0 then control_change lo d0 d1
  else if hi =? 0xc0 then [ProgramChange lo d0]
  else if hi =? 0xd0 then [AftertouchChannel lo d0]
  else if hi =? 0xe0 then [PitchBend lo ((Z.shiftl d1 7 + d0) mod 65536)]
  else if hi =? 0xf0 then system_message lo d0
  else [].

(** [MessageReceived] writes no field: it maps the parser and the status to
    the calls made. *)
Definition MessageReceived (p : MidiStreamParser) (status : Z) : list call :=
  let bozo := if status =? 0 then [BozoByte (data_at p 0)] else [] in
  let hi := Z.land status 0xf0 in
  let lo := Z.land status 0x0f in
  if negb (hi =? 0xf0) && (CheckChannel lo =? 0) then bozo
  else bozo ++ dispatch hi lo (data_at p 0) (data_at p 1).

(** ** [PushByte] (lines 97-153) *)

(** [expected_data_size_] after lines 110-131. *)
Definition expected_size (hi lo : Z) : Z :=
  if (hi =? 0x80) || (hi =? 0x90) || (hi =? 0xa0) || (hi =? 0xb0) then 2
  else if (hi =? 0xc0) || (hi =? 0xd0) then 1
  else if hi =? 0xe0 then 2
  else if hi =? 0xf0 then
    (if (0 <? lo) && (lo <? 3) then 2
     else if 4 <=? lo then 0
     else 1)
  else 1.

(** Lines 107-138: a status byte below [0xf8]. *)
Definition push_status (p : MidiStreamParser) (byte : Z)
  : MidiStreamParser * list call :=
  let hi := Z.land byte 0xf0 in
  let lo := Z.land byte 0x0f in
  let sysex_end := if running_status_ p =? 0xf0 then [SysExEnd] else [] in
  let sysex_start := if byte =? 0xf0 then [SysExStart] else [] in
  ({| running_status_ := byte;
      data_ := data_ p;
      data_size_ := 0;
      expected_data_size_ := expected_size hi lo |},
   sysex_end ++ sysex_start).

(** Line 140: [data_[data_size_++] = byte]. *)
Definition push_data (p : MidiStreamParser) (byte : Z)
  : option MidiStreamParser :=
  d ← data_store (data_ p) (data_size_ p) byte;
  Some {| running_status_ := running_status_ p;
          data_ := d;
          data_size_ := (data_size_ p + 1) mod 256;
          expected_data_size_ := expected_data_size_ p |}.

(** Lines 142-150: the completion check.  The result is the returned
    [value], the parser and the calls made. *)
Definition complete (p : MidiStreamParser)
  : Z * MidiStreamParser * list call :=
  if data_size_ p >=? expected_data_size_ p then
    let value := running_status_ p in
    let calls := MessageReceived p (running_status_ p) in
    let one_shot := running_status_ p >? 0xf0 in
    (value,
     {| running_status_ := if one_shot then 0 else running_status_ p;
        data_ := data_ p;
        data_size_ := 0;
        expected_data_size_ := if one_shot then 0 else expected_data_size_ p |},
     calls)
  else (0, p, []).

Definition PushByte (p : MidiStreamParser) (byte : Z)
  : option (Z * MidiStreamParser * list call) :=
  if byte >=? 0xf8 then
    Some (byte, p, MessageReceived p byte)
  else if byte >=? 0x80 then
    let '(p1, t1) := push_status p byte in
    let '(value, p2, t2) := complete p1 in
    Some (value, p2, t1 ++ t2)
  else
    p1 ← push_data p byte;
    let '(value, p2, t2) := complete p1 in
    Some (value, p2, t2).

(** The caller's loop: push the bytes one after the other; keep the returned
    values and the calls in order. *)
Fixpoint feed (p : MidiStreamParser) (bytes : list Z)
  : option (list Z * MidiStreamParser * list call) :=
  match bytes with
  | [] => Some ([], p, [])
  | b :: rest =>
      match PushByte p b with
      | None => None
      | Some (v, p1, t1) =>
          match feed p1 rest with
          | None => None
          | Some (vs, p2, t2) => Some (v :: vs, p2, t1 ++ t2)
          end
      end
  end.

Definition calls_of {A B} (r : option (A * B * list call))
  : option (list call) :=
  '(_, _, t) ← r; Some t.

(** The returned value and the state left, without the calls. *)
Definition value_state {C} (r : option (Z * MidiStreamParser * C))
  : option (Z * MidiStreamParser) :=
  '(v, p, _) ← r; Some (v, p).

(** ** Reachable states *)

(** The states a parser goes through: the constructed one, and the one left
    by [PushByte] on any byte. *)
Inductive reachable : MidiStreamParser -> Prop :=
  | reachable_new g0 g1 g2 : reachable (new_parser g0 g1 g2)
  | reachable_push p byte value p' calls :
      reachable p -> is_byte byte ->
      PushByte p byte = Some (value, p', calls) ->
      reachable p'.

End Parser.

(** ** The byte classes of section 4.1, in the spec's words *)

(** Item 1: the call matching a realtime byte; none for the reserved
    [0xf9] and [0xfd]. *)
Definition realtime_call (byte : Z) : list call :=
  if byte =? 0xf8 then [Clock]
  else if byte =? 0xfa then [Start]
  else if byte =? 0xfb then [Continue]
  else if byte =? 0xfc then [Stop]
  else if byte =? 0xfe then [ActiveSensing]
  else if byte =? 0xff then [Reset]
  else [].

(** Item 2: the Expected Data Count of a status byte [0x80..0xf7]. *)
Definition spec_expected_count (status : Z) : Z :=
  if status <? 0xc0 then 2        (* Note Off/On, Poly Aftertouch, Control Change *)
  else if status <? 0xe0 then 1   (* Program Change, Channel Aftertouch *)
  else if status <? 0xf0 then 2   (* Pitch Bend *)
  else if (status =? 0xf1) || (status =? 0xf2) then 2
  else if 0xf4 <=? status then 0
  else 1.

(** Item 4: a byte below [0xf8] completes a message when it is a status that
    expects no data, or a data byte that brings the Received Data Count up
    to the Expected Data Count. *)
Definition completes_message (p : MidiStreamParser) (byte : Z) : bool :=
  if byte >=? 0x80 then spec_expected_count byte =? 0
  else data_size_ p + 1 >=? expected_data_size_ p.

(** The status of the message [byte] belongs to. *)
Definition message_status (p : MidiStreamParser) (byte : Z) : Z :=
  if byte >=? 0x80 then byte else running_status_ p.

(** What holds of the fields between two calls of [PushByte]. *)
Record parser_inv (p : MidiStreamParser) : Prop := {
  inv_array : length (data_ p) = 3%nat;
  inv_size_pos : 0 <= data_size_ p;
  inv_size_le : data_size_ p <= expected_data_size_ p;
  inv_expected_le : expected_data_size_ p <= 2;
  inv_pending : 0 < expected_data_size_ p ->
                data_size_ p < expected_data_size_ p;
  inv_no_status : running_status_ p = 0 -> expected_data_size_ p = 0;
  inv_status : running_status_ p <> 0 ->
               0x80 <= running_status_ p < 0xf8 /\
               expected_data_size_ p = spec_expected_count (running_status_ p)
}.

(** The bytes [lo, lo + 1, ..., lo + n - 1]. *)
Definition byte_range (lo : Z) (n : nat) : list Z :=
  map (fun k => lo + Z.of_nat k) (seq 0 n).

(** The state of a fresh parser after the byte [F0]. *)
Definition sysex_open : MidiStreamParser :=
  {| running_status_ := 0xf0;
     data_ := [0; 0; 0];
     data_size_ := 0;
     expected_data_size_ := 1 |}.

(** The state of a fresh parser after the bytes [90 3C]. *)
Definition note_pending : MidiStreamParser :=
  {| running_status_ := 0x90;
     data_ := [0x3c; 0; 0];
     data_size_ := 1;
     expected_data_size_ := 2 |}.

(** Splits a goal on [b] into one goal per value of [lo <= b < lo + n]. *)
Ltac each_byte b lo n :=
  let H := fresh "Hin" in
  assert (H : In b (byte_range lo n))
    by (unfold byte_range; apply in_map_iff;
        exists (Z.to_nat (b - lo)); split; [lia | apply in_seq; lia]);
  cbv [byte_range seq map Z.of_nat Pos.of_succ_nat Pos.succ Z.add Pos.add] in H;
  repeat (destruct H as [H | H]; [subst b | ]); [ .. | destruct H].

(** ** Further notions used by the properties *)

(** [SysExEnd()] when the message in progress is a SysEx (lines 132-134). *)
Definition implicit_end (p : MidiStreamParser) : list call :=
  if running_status_ p =? 0xf0 then [SysExEnd] else [].

(** Between two calls of [PushByte]: a running status always awaits data,
    and a data byte already buffered is below [0x80]. *)
Record buffer_inv (p : MidiStreamParser) : Prop := {
  binv_inv : parser_inv p;
  binv_status : running_status_ p <> 0 -> 1 <= expected_data_size_ p;
  binv_first : 1 <= data_size_ p -> 0 <= data_at p 0 < 0x80
}.

(** Two parsers in the same place of the same message: the scalar fields
    agree, and so does the part of [data_] received so far. *)
Record same_progress (p q : MidiStreamParser) : Prop := {
  sp_status : running_status_ p = running_status_ q;
  sp_size : data_size_ p = data_size_ q;
  sp_expected : expected_data_size_ p = expected_data_size_ q;
  sp_first : 1 <= data_size_ p -> data_at p 0 = data_at q 0
}.

(** Follows the SysEx calls of a trace.  [open] tells whether a SysEx is in
    progress; the result is [None] when [SysExStart] comes while one is in
    progress or [SysExByte] while none is. *)
Fixpoint sysex_track (open : bool) (t : list call) : option bool :=
  match t with
  | [] => Some open
  | SysExStart :: t' => if open then None else sysex_track true t'
  | SysExByte _ :: t' => if open then sysex_track true t' else None
  | SysExEnd :: t' => sysex_track false t'
  | _ :: t' => sysex_track open t'
  end.

(** The channel mode calls of controllers [0x78..0x7f], in order. *)
Definition channel_mode_calls (ch d1 : Z) : list call :=
  [AllSoundOff ch; ResetAllControllers ch; LocalControl ch d1;
   AllNotesOff ch; OmniModeOff ch; OmniModeOn ch; MonoModeOn ch d1;
   PolyModeOn ch].

(** ** Message framing, from the byte stream alone *)

(** Sections 3 and 4.1 of the spec, read as a decoder of its own: the
    Running Status (0 when none is established) and the Received Data
    Count, and nothing else.  The Expected Data Count is not stored: it is
    [spec_expected_count] of the status. *)
Record framing : Type := mkFraming {
  frame_status : Z;
  frame_received : Z
}.

(** At construction no message is in progress. *)
Definition no_frame : framing :=
  {| frame_status := 0; frame_received := 0 |}.

(** A byte below [0xf8] completes a message when it is a status byte whose
    message has no data byte, or a data byte that is the last one the
    established status expects.  A data byte with no status established
    belongs to no message. *)
Definition frame_completes (f : framing) (byte : Z) : bool :=
  if 0x80 <=? byte then spec_expected_count byte =? 0
  else negb (frame_status f =? 0)
       && (spec_expected_count (frame_status f) <=? frame_received f + 1).

(** The status byte of the message the byte belongs to. *)
Definition frame_message_status (f : framing) (byte : Z) : Z :=
  if 0x80 <=? byte then byte else frame_status f.

(** The framing after one more byte: a realtime byte leaves it alone; a
    completed message resets the count and, when its status is above
    [0xf0], the status too; a status byte begins a message; a data byte is
    counted, unless no status is established. *)
Definition frame_step (f : framing) (byte : Z) : framing :=
  if 0xf8 <=? byte then f
  else if frame_completes f byte then
    {| frame_status := if 0xf0 <? frame_message_status f byte then 0
                       else frame_message_status f byte;
       frame_received := 0 |}
  else if 0x80 <=? byte then
    {| frame_status := byte; frame_received := 0 |}
  else if frame_status f =? 0 then f
  else {| frame_status := frame_status f;
          frame_received := frame_received f + 1 |}.

(** The framing after the bytes pushed since construction. *)
Definition frame_after (bytes : list Z) : framing :=
  fold_left frame_step bytes no_frame.

(** The value section 4.1 asks [consume] to return for [byte]. *)
Definition frame_value (f : framing) (byte : Z) : Z :=
  if 0xf8 <=? byte then byte
  else if frame_completes f byte then frame_message_status f byte
  else 0.

(** ** Where the arguments of a call come from *)

(** The data arguments of a call, the 14-bit pitch bend as its two 7-bit
    halves.  The channel is not one of them. *)
Definition call_data (c : call) : list Z :=
  match c with
  | NoteOn _ n v | NoteOff _ n v | Aftertouch _ n v | ControlChange _ n v =>
      [n; v]
  | AftertouchChannel _ v | ProgramChange _ v | LocalControl _ v
  | MonoModeOn _ v | SysExByte v | BozoByte v => [v]
  | PitchBend _ v => [v mod 128; v / 128]
  | _ => []
  end.

(** The most recent byte below [0xf8] of a stream, if any: realtime bytes
    are skipped. *)
Definition last_pushed_from (last : option Z) (bytes : list Z) : option Z :=
  fold_left (fun acc b => if b <? 0xf8 then Some b else acc) bytes last.

Definition last_pushed (bytes : list Z) : option Z :=
  last_pushed_from None bytes.

(** Closes the side conditions on the bytes of a literal list. *)
Ltac literal_bytes := repeat constructor; unfold is_byte; cbv beta; lia.

(** * Properties *)

(** ** Finite case analysis on bytes *)

Lemma byte_range_In (lo : Z) (n : nat) (b : Z) :
  lo <= b < lo + Z.of_nat n -> In b (byte_range lo n).
Proof.
  intros Hb. unfold byte_range. apply in_map_iff.
  exists (Z.to_nat (b - lo)). split; [lia|].
  apply in_seq. lia.
Qed.

Lemma forall_range (P : Z -> bool) (lo : Z) (n : nat) :
  forallb P (byte_range lo n) = true ->
  forall b, lo <= b < lo + Z.of_nat n -> P b = true.
Proof.
  intros Hall b Hb.
  rewrite forallb_forall in Hall. apply Hall, byte_range_In, Hb.
Qed.

Lemma expected_size_spec (b : Z) :
  0x80 <= b < 0xf8 ->
  expected_size (Z.land b 0xf0) (Z.land b 0x0f) = spec_expected_count b.
Proof.
  intros Hb. apply Z.eqb_eq.
  apply (forall_range
           (fun b => expected_size (Z.land b 0xf0) (Z.land b 0x0f)
                     =? spec_expected_count b) 0x80 120); [|lia].
  vm_compute. reflexivity.
Qed.

Lemma spec_expected_count_range (b : Z) :
  0 <= spec_expected_count b <= 2.
Proof.
  unfold spec_expected_count.
  repeat match goal with |- context [if ?c then _ else _] => destruct c end; lia.
Qed.

Lemma spec_expected_count_zero (b : Z) :
  spec_expected_count b = 0 -> 0xf4 <= b.
Proof.
  unfold spec_expected_count.
  repeat match goal with
         | |- context [if ?c then _ else _] => destruct c eqn:?
         end; lia.
Qed.


(** ** The three branches of [PushByte] *)

Section Branches.

Context {D : Device}.

Lemma PushByte_realtime (p : MidiStreamParser) (b : Z) :
  0xf8 <= b ->
  PushByte p b = Some (b, p, MessageReceived p b).
Proof.
  intros Hb. unfold PushByte.
  destruct (b >=? 0xf8) eqn:E; [reflexivity | lia].
Qed.

Lemma PushByte_status (p : MidiStreamParser) (b : Z) :
  0x80 <= b < 0xf8 ->
  PushByte p b =
    Some (let '(value, p2, t2) := complete (push_status p b).1 in
          (value, p2, (push_status p b).2 ++ t2)).
Proof.
  intros Hb. unfold PushByte.
  destruct (b >=? 0xf8) eqn:E1; [lia|].
  destruct (b >=? 0x80) eqn:E2; [|lia].
  destruct (push_status p b) as [p1 t1]. simpl.
  destruct (complete p1) as [[v p2] t2]. reflexivity.
Qed.

Lemma PushByte_data (p : MidiStreamParser) (b : Z) :
  b < 0x80 ->
  PushByte p b =
    p1 ← push_data p b; Some (complete p1).
Proof.
  intros Hb. unfold PushByte.
  destruct (b >=? 0xf8) eqn:E1; [lia|].
  destruct (b >=? 0x80) eqn:E2; [lia|].
  destruct (push_data p b) as [p1|]; simpl; [|reflexivity].
  destruct (complete p1) as [[v p2] t2]. reflexivity.
Qed.

(** Inside the array the write succeeds and the count does not wrap. *)
Lemma push_data_bounds (p : MidiStreamParser) (b : Z) :
  length (data_ p) = 3%nat ->
  0 <= data_size_ p < 3 ->
  push_data p b =
    Some {| running_status_ := running_status_ p;
            data_ := <[Z.to_nat (data_size_ p) := b]> (data_ p);
            data_size_ := data_size_ p + 1;
            expected_data_size_ := expected_data_size_ p |}.
Proof.
  intros Harr Hds.
  unfold push_data, data_store. rewrite Harr.
  change (Z.of_nat 3) with 3.
  destruct (0 <=? data_size_ p) eqn:E1; [|lia].
  destruct (data_size_ p <? 3) eqn:E2; [|lia].
  simpl. rewrite Z.mod_small by lia. reflexivity.
Qed.

Lemma push_data_inv (p : MidiStreamParser) (b : Z) :
  parser_inv p ->
  push_data p b =
    Some {| running_status_ := running_status_ p;
            data_ := <[Z.to_nat (data_size_ p) := b]> (data_ p);
            data_size_ := data_size_ p + 1;
            expected_data_size_ := expected_data_size_ p |}.
Proof.
  intros [Harr Hpos Hle Hexp Hpend Hnone Hstat].
  apply push_data_bounds; [exact Harr | lia].
Qed.

Lemma new_parser_inv (g0 g1 g2 : Z) : parser_inv (new_parser g0 g1 g2).
Proof. split; simpl; lia. Qed.

Lemma PushByte_inv (p : MidiStreamParser) (b v : Z) p' t :
  parser_inv p -> is_byte b ->
  PushByte p b = Some (v, p', t) ->
  parser_inv p'.
Proof.
  intros Hinv Hb Hpush.
  destruct (Z_le_gt_dec 0xf8 b) as [Hrt | Hrt].
  { rewrite PushByte_realtime in Hpush by exact Hrt. congruence. }
  destruct (Z_le_gt_dec 0x80 b) as [Hst | Hst].
  - rewrite PushByte_status in Hpush by lia.
    unfold push_status, complete in Hpush. simpl in Hpush.
    rewrite expected_size_spec in Hpush by lia.
    pose proof (spec_expected_count_range b) as Hrange.
    destruct Hinv as [Harr _ _ _ _ _ _].
    destruct (0 >=? spec_expected_count b) eqn:E;
      injection Hpush as <- <- <-.
    + assert (spec_expected_count b = 0) as H0 by lia.
      apply spec_expected_count_zero in H0.
      destruct (b >? 0xf0) eqn:E'; [|lia].
      split; simpl; lia.
    + split; simpl; lia.
  - rewrite PushByte_data, (push_data_inv p b Hinv) in Hpush by lia.
    simpl in Hpush. unfold complete in Hpush. simpl in Hpush.
    destruct Hinv as [Harr Hpos Hle Hexp Hpend Hnone Hstat].
    destruct (data_size_ p + 1 >=? expected_data_size_ p) eqn:E;
      injection Hpush as <- <- <-.
    + destruct (running_status_ p >? 0xf0) eqn:E';
        split; simpl; rewrite ?length_insert; try lia; exact Hstat.
    + split; simpl; rewrite ?length_insert; try lia; exact Hstat.
Qed.

Lemma PushByte_total (p : MidiStreamParser) (b : Z) :
  parser_inv p ->
  exists v p' t, PushByte p b = Some (v, p', t).
Proof.
  intros Hinv.
  destruct (Z_le_gt_dec 0xf8 b) as [Hrt | Hrt].
  { rewrite PushByte_realtime by exact Hrt. eauto. }
  destruct (Z_le_gt_dec 0x80 b) as [Hst | Hst].
  - rewrite PushByte_status by lia.
    destruct (complete (push_status p b).1) as [[v p2] t2]. eauto.
  - rewrite PushByte_data, (push_data_inv p b Hinv) by lia. simpl.
    match goal with |- context [complete ?q] =>
      destruct (complete q) as [[v p2] t2] end.
    eauto.
Qed.

Lemma reachable_inv (p : MidiStreamParser) : reachable p -> parser_inv p.
Proof.
  induction 1 as [g0 g1 g2 | p b v p' t _ IH Hb Hpush].
  - apply new_parser_inv.
  - exact (PushByte_inv p b v p' t IH Hb Hpush).
Qed.

Lemma feed_cons (p : MidiStreamParser) (b : Z) (rest : list Z) :
  feed p (b :: rest) =
    match PushByte p b with
    | None => None
    | Some (v, p1, t1) =>
        match feed p1 rest with
        | None => None
        | Some (vs, p2, t2) => Some (v :: vs, p2, t1 ++ t2)
        end
    end.
Proof. reflexivity. Qed.

(** Pushing bytes after bytes. *)
Lemma feed_app (p : MidiStreamParser) (pre post : list Z) :
  feed p (pre ++ post) =
    match feed p pre with
    | None => None
    | Some (vs1, p1, t1) =>
        match feed p1 post with
        | None => None
        | Some (vs2, p2, t2) => Some (vs1 ++ vs2, p2, t1 ++ t2)
        end
    end.
Proof.
  revert p. induction pre as [|b pre IH]; intros p; simpl.
  - destruct (feed p post) as [[[vs2 p2] t2]|]; reflexivity.
  - destruct (PushByte p b) as [[[v p1] t1]|]; [|reflexivity].
    rewrite IH.
    destruct (feed p1 pre) as [[[vs1 p2] t2]|]; [|reflexivity].
    destruct (feed p2 post) as [[[vs2 p3] t3]|]; [|reflexivity].
    rewrite app_assoc. reflexivity.
Qed.

Lemma feed_reachable (p : MidiStreamParser) (bytes vs : list Z) p' t :
  reachable p -> Forall is_byte bytes ->
  feed p bytes = Some (vs, p', t) ->
  reachable p'.
Proof.
  intros Hreach Hbytes. revert p vs t Hreach.
  induction Hbytes as [|b bytes Hb _ IH]; intros p vs t Hreach Hfeed;
    simpl in Hfeed.
  - congruence.
  - destruct (PushByte p b) as [[[v p1] t1]|] eqn:Hpush; [|discriminate].
    destruct (feed p1 bytes) as [[[vs' p2] t2]|] eqn:Hrest; [|discriminate].
    injection Hfeed as <- <- <-.
    apply (IH p1 vs' t2); [|exact Hrest].
    exact (reachable_push p b v p1 t1 Hreach Hb Hpush).
Qed.

Lemma feed_total (p : MidiStreamParser) (bytes : list Z) :
  reachable p -> Forall is_byte bytes ->
  exists vs p' t, feed p bytes = Some (vs, p', t).
Proof.
  intros Hreach Hbytes. revert p Hreach.
  induction Hbytes as [|b bytes Hb _ IH]; intros p Hreach; simpl.
  - eauto.
  - destruct (PushByte_total p b (reachable_inv p Hreach))
      as (v & p1 & t1 & Hpush).
    rewrite Hpush.
    destruct (IH p1 (reachable_push p b v p1 t1 Hreach Hb Hpush))
      as (vs & p2 & t2 & Hrest).
    rewrite Hrest. eauto.
Qed.

End Branches.

(** ** What [MessageReceived] calls *)

Section Dispatch.

Context {D : Device}.

Lemma dispatch_length (hi lo d0 d1 : Z) :
  (length (dispatch hi lo d0 d1) <= 1)%nat.
Proof.
  unfold dispatch, control_change, system_message.
  repeat match goal with
         | |- context [if ?c then _ else _] => destruct c
         end; simpl; lia.
Qed.

Lemma MessageReceived_length (p : MidiStreamParser) (status : Z) :
  (length (MessageReceived p status) <= 1)%nat.
Proof.
  unfold MessageReceived.
  destruct (status =? 0) eqn:E.
  - apply Z.eqb_eq in E. subst status. rewrite !Z.land_0_l.
    destruct (CheckChannel 0 =? 0); simpl; lia.
  - match goal with |- context [if ?c then _ else _] => destruct c end;
      simpl; [lia | apply dispatch_length].
Qed.

(** A realtime status reaches the inner switch of [case 0xf0] whatever
    [CheckChannel] answers, and reads no field. *)
Lemma MessageReceived_realtime (p : MidiStreamParser) (r : Z) :
  0xf8 <= r <= 0xff ->
  MessageReceived p r = realtime_call r.
Proof.
  intros Hr. each_byte r 0xf8 8%nat; reflexivity.
Qed.

(** Status [0xf0]: the data byte is a byte of the SysEx stream. *)
Lemma MessageReceived_sysex (p : MidiStreamParser) :
  MessageReceived p 0xf0 = [SysExByte (data_at p 0)].
Proof. reflexivity. Qed.

(** With no status the only call is [BozoByte(data_[0])]. *)
Lemma MessageReceived_no_status (p : MidiStreamParser) :
  MessageReceived p 0 = [BozoByte (data_at p 0)].
Proof.
  unfold MessageReceived. rewrite !Z.land_0_l.
  destruct (CheckChannel 0 =? 0); reflexivity.
Qed.

(** Statuses [0xf4], [0xf5] and [0xf6] expect no data and make no call. *)
Lemma MessageReceived_reserved (p : MidiStreamParser) (b : Z) :
  0xf4 <= b <= 0xf6 ->
  MessageReceived p b = [].
Proof.
  intros Hb. each_byte b 0xf4 3%nat; reflexivity.
Qed.

Lemma complete_calls_length (p : MidiStreamParser) :
  (length (complete p).2 <= 1)%nat.
Proof.
  unfold complete.
  destruct (data_size_ p >=? expected_data_size_ p); simpl;
    [apply MessageReceived_length | lia].
Qed.

(** A data byte pushed with no running status. *)
Lemma orphan_push (p : MidiStreamParser) (d : Z) :
  parser_inv p ->
  running_status_ p = 0 ->
  0 <= d < 0x80 ->
  PushByte p d =
    Some (0,
          {| running_status_ := 0;
             data_ := <[0%nat := d]> (data_ p);
             data_size_ := 0;
             expected_data_size_ := 0 |},
          [BozoByte d]).
Proof.
  intros Hinv Hrs Hd.
  pose proof Hinv as [Harr Hpos Hle Hexp Hpend Hnone _].
  specialize (Hnone Hrs).
  assert (Hds : data_size_ p = 0) by lia.
  rewrite PushByte_data, (push_data_inv p d Hinv) by lia.
  simpl. unfold complete. simpl.
  rewrite Hrs, Hnone, Hds. simpl.
  rewrite MessageReceived_no_status. unfold data_at. simpl.
  rewrite list_lookup_insert_eq by lia. reflexivity.
Qed.

(** A channel status whose channel the device rejects makes no call. *)
Lemma MessageReceived_rejected (p : MidiStreamParser) (status : Z) :
  0x80 <= status < 0xf0 ->
  CheckChannel (Z.land status 0x0f) = 0 ->
  MessageReceived p status = [].
Proof.
  intros Hst Hcc. unfold MessageReceived. rewrite Hcc.
  destruct (status =? 0) eqn:E0; [lia|].
  assert (Hhi : (Z.land status 0xf0 =? 0xf0) = false).
  { apply negb_true_iff.
    apply (forall_range (fun s => negb (Z.land s 0xf0 =? 0xf0)) 0x80 112);
      [vm_compute; reflexivity | lia]. }
  rewrite Hhi. reflexivity.
Qed.

(** Status [0x90 + ch] on an accepted channel: [case 0x90]. *)
Lemma MessageReceived_note_on (p : MidiStreamParser) (ch : Z) :
  0 <= ch < 16 ->
  CheckChannel ch <> 0 ->
  MessageReceived p (0x90 + ch) =
    [if data_at p 1 =? 0
     then NoteOff ch (data_at p 0) 0
     else NoteOn ch (data_at p 0) (data_at p 1)].
Proof.
  intros Hch Hcc. unfold MessageReceived.
  assert (Hhi : Z.land (0x90 + ch) 0xf0 = 0x90).
  { apply Z.eqb_eq.
    apply (forall_range (fun c => Z.land (0x90 + c) 0xf0 =? 0x90) 0 16);
      [vm_compute; reflexivity | lia]. }
  assert (Hlo : Z.land (0x90 + ch) 0x0f = ch).
  { apply Z.eqb_eq.
    apply (forall_range (fun c => Z.land (0x90 + c) 0x0f =? c) 0 16);
      [vm_compute; reflexivity | lia]. }
  rewrite Hhi, Hlo.
  destruct (0x90 + ch =? 0) eqn:E0; [lia|].
  destruct (CheckChannel ch =? 0) eqn:E1; [lia|].
  unfold dispatch. simpl.
  destruct (data_at p 1 =? 0); reflexivity.
Qed.

(** A note-on status byte: two data bytes are awaited. *)
Lemma push_note_status (p : MidiStreamParser) (ch : Z) :
  0 <= ch < 16 ->
  PushByte p (0x90 + ch) =
    Some (0,
          {| running_status_ := 0x90 + ch;
             data_ := data_ p;
             data_size_ := 0;
             expected_data_size_ := 2 |},
          if running_status_ p =? 0xf0 then [SysExEnd] else []).
Proof.
  intros Hch.
  rewrite PushByte_status by lia.
  unfold push_status, complete. simpl.
  rewrite expected_size_spec by lia.
  assert (Hexp : spec_expected_count (0x90 + ch) = 2).
  { unfold spec_expected_count.
    destruct (0x90 + ch <? 0xc0) eqn:E; [reflexivity | lia]. }
  rewrite Hexp. change (0 >=? 2) with false. cbv iota.
  assert (Hz : (0x90 + ch =? 0xf0) = false) by lia. rewrite Hz.
  rewrite !app_nil_r. reflexivity.
Qed.

(** Two data bytes pushed at a message boundary under a status that expects
    two and is kept as running status. *)
Lemma feed_two_data_bytes (p : MidiStreamParser) (d0 d1 : Z) :
  length (data_ p) = 3%nat ->
  data_size_ p = 0 ->
  expected_data_size_ p = 2 ->
  running_status_ p <= 0xf0 ->
  d0 < 0x80 -> d1 < 0x80 ->
  let p' := {| running_status_ := running_status_ p;
               data_ := <[1%nat := d1]> (<[0%nat := d0]> (data_ p));
               data_size_ := 0;
               expected_data_size_ := 2 |} in
  feed p [d0; d1] =
    Some ([0; running_status_ p], p',
          MessageReceived p' (running_status_ p)) /\
  data_at p' 0 = d0 /\ data_at p' 1 = d1.
Proof.
  intros Harr Hds Heds Hrs Hd0 Hd1 p'. split.
  - unfold feed.
    rewrite PushByte_data, push_data_bounds by lia.
    simpl. unfold complete at 1. simpl. rewrite Hds, Heds.
    change (0 + 1 >=? 2) with false. cbv iota.
    rewrite PushByte_data, push_data_bounds
      by (simpl; rewrite ?length_insert; lia).
    simpl. unfold complete. simpl.
    change (0 + 1 + 1 >=? 2) with true. cbv iota.
    destruct (running_status_ p >? 0xf0) eqn:E; [lia|].
    rewrite app_nil_r. reflexivity.
  - unfold data_at, p'. simpl.
    destruct (data_ p) as [|x0 [|x1 l]]; try discriminate Harr.
    split; reflexivity.
Qed.

End Dispatch.

(** The fields and the returned value do not depend on the device. *)
Lemma PushByte_device_independent (D1 D2 : Device)
    (p : MidiStreamParser) (b : Z) :
  value_state (PushByte (D := D1) p b) = value_state (PushByte (D := D2) p b).
Proof.
  unfold PushByte, complete, push_status.
  destruct (b >=? 0xf8); [reflexivity|].
  destruct (b >=? 0x80).
  - match goal with |- context [if ?c then _ else _] => destruct c end;
      reflexivity.
  - destruct (push_data p b) as [p1|]; simpl; [|reflexivity].
    destruct (data_size_ p1 >=? expected_data_size_ p1); reflexivity.
Qed.

(** ** The claims *)

(** C1 (the source departs from the claim).  On the bytes [F0 01 02 F7] a
    freshly constructed parser calls [SysExStart()], [SysExByte(1)],
    [SysExByte(2)], [SysExEnd()] and then [SysExEnd()] once more: for the
    byte [F7] line 133 ends the message in progress and line 245 ends it
    again.  The returned values are [0], [F0], [F0], [F7]. *)
Theorem C1_sysex_frame_calls (D : Device) (g0 g1 g2 : Z) :
  feed (new_parser g0 g1 g2) [0xf0; 0x01; 0x02; 0xf7] =
    Some ([0; 0xf0; 0xf0; 0xf7],
          {| running_status_ := 0;
             data_ := [0x02; g1; g2];
             data_size_ := 0;
             expected_data_size_ := 0 |},
          [SysExStart; SysExByte 1; SysExByte 2; SysExEnd; SysExEnd]).
Proof. reflexivity. Qed.

(** C4.  A realtime byte [r] in [0xf8..0xff] leaves every field of every
    parser state as it was, returns [r] and makes the call matching [r]
    only.  Hence putting [r] between the bytes [pre] and [post] of a stream
    changes neither the calls made for [pre] and [post] nor the final state:
    the call for [r] appears between them. *)
Theorem C4_realtime_leaves_state (D : Device) (p : MidiStreamParser) (r : Z)
    (pre post vs1 vs2 : list Z) (p1 p2 : MidiStreamParser)
    (t1 t2 : list call) :
  0xf8 <= r <= 0xff ->
  feed p pre = Some (vs1, p1, t1) ->
  feed p1 post = Some (vs2, p2, t2) ->
  (forall q, PushByte q r = Some (r, q, realtime_call r)) /\
  feed p (pre ++ post) = Some (vs1 ++ vs2, p2, t1 ++ t2) /\
  feed p (pre ++ r :: post)
    = Some (vs1 ++ r :: vs2, p2, t1 ++ realtime_call r ++ t2).
Proof.
  intros Hr Hpre Hpost.
  assert (Hpush : forall q, PushByte q r = Some (r, q, realtime_call r)).
  { intros q. rewrite PushByte_realtime by lia.
    rewrite MessageReceived_realtime by exact Hr. reflexivity. }
  split; [exact Hpush|].
  rewrite !feed_app, Hpre. simpl.
  rewrite Hpush, Hpost. split; reflexivity.
Qed.

(** C8.  In a reachable state with no running status, a data byte [d] in
    [0x00..0x7f] is reported by [BozoByte(d)] and by no other call, the
    returned value is 0, and the two counts and the running status are
    afterwards what they were before. *)
Theorem C8_orphan_data_byte (D : Device) (p : MidiStreamParser) (d : Z) :
  reachable p ->
  running_status_ p = 0 ->
  0 <= d < 0x80 ->
  exists p',
    PushByte p d = Some (0, p', [BozoByte d]) /\
    data_size_ p' = data_size_ p /\
    expected_data_size_ p' = expected_data_size_ p /\
    running_status_ p' = running_status_ p.
Proof.
  intros Hreach Hrs Hd.
  rewrite (orphan_push p d (reachable_inv p Hreach) Hrs Hd).
  pose proof (reachable_inv p Hreach) as [_ Hpos Hle _ _ Hnone _].
  specialize (Hnone Hrs).
  eexists. split; [reflexivity|]. simpl. lia.
Qed.

(** C10.  Whatever bytes are pushed into a freshly constructed parser, every
    push is defined (no write leaves [data_]), and in the state reached
    [data_size_ <= expected_data_size_ <= 2]; so the next write
    [data_[data_size_++]] is at index 0, 1 or 2 of the three bytes of
    [data_]. *)
Theorem C10_data_buffer_in_bounds (D : Device) (g0 g1 g2 : Z)
    (bytes : list Z) :
  Forall is_byte bytes ->
  exists vs p t,
    feed (new_parser g0 g1 g2) bytes = Some (vs, p, t) /\
    data_size_ p <= expected_data_size_ p <= 2 /\
    0 <= data_size_ p < 3 /\
    length (data_ p) = 3%nat /\
    forall b, data_store (data_ p) (data_size_ p) b
              = Some (<[Z.to_nat (data_size_ p) := b]> (data_ p)).
Proof.
  intros Hbytes.
  destruct (feed_total (new_parser g0 g1 g2) bytes
              (reachable_new g0 g1 g2) Hbytes) as (vs & p & t & Hfeed).
  exists vs, p, t. split; [exact Hfeed|].
  assert (Hreach : reachable p).
  { exact (feed_reachable _ bytes vs p t (reachable_new g0 g1 g2)
             Hbytes Hfeed). }
  destruct (reachable_inv p Hreach) as [Harr Hpos Hle Hexp Hpend Hnone _].
  repeat split; try lia.
  intros b. unfold data_store. rewrite Harr.
  change (Z.of_nat 3) with 3.
  destruct (0 <=? data_size_ p) eqn:E1; [|lia].
  destruct (data_size_ p <? 3) eqn:E2; [|lia].
  reflexivity.
Qed.

(** C2 (as the source has it).  In a reachable state one [PushByte] makes
    at most one call, except under running status [0xf0]: there the status
    byte [0xf0] makes two, [SysExEnd()] then [SysExStart()].  (The byte
    [0xf7] under running status [0xf0] is left aside.) *)
Theorem C2_calls_per_push (D : Device) (p : MidiStreamParser) (b : Z) :
  reachable p ->
  is_byte b ->
  ~ (running_status_ p = 0xf0 /\ b = 0xf7) ->
  exists v p' t,
    PushByte p b = Some (v, p', t) /\
    if (running_status_ p =? 0xf0) && (b =? 0xf0)
    then t = [SysExEnd; SysExStart]
    else (length t <= 1)%nat.
Proof.
  intros Hreach Hb Hnot.
  pose proof (reachable_inv p Hreach) as Hinv.
  destruct (Z_le_gt_dec 0xf8 b) as [Hrt | Hrt].
  { rewrite PushByte_realtime by exact Hrt.
    do 3 eexists. split; [reflexivity|].
    destruct (b =? 0xf0) eqn:E; [lia|]. rewrite andb_false_r.
    apply MessageReceived_length. }
  destruct (Z_le_gt_dec 0x80 b) as [Hst | Hst].
  - rewrite PushByte_status by lia.
    pose proof (complete_calls_length (push_status p b).1) as Hlen.
    destruct (complete (push_status p b).1) as [[v p2] t2] eqn:Hc.
    do 3 eexists. split; [reflexivity|].
    unfold push_status, complete in Hc. simpl in Hc, Hlen.
    rewrite expected_size_spec in Hc by lia.
    unfold push_status. simpl.
    destruct (b =? 0xf0) eqn:Eb.
    + assert (b = 0xf0) as -> by lia. simpl in Hc.
      injection Hc as <- <- <-.
      destruct (running_status_ p =? 0xf0); simpl; [reflexivity | lia].
    + rewrite andb_false_r, app_nil_r.
      destruct (running_status_ p =? 0xf0) eqn:Er; [|exact Hlen].
      destruct (0 >=? spec_expected_count b) eqn:E0.
      * pose proof (spec_expected_count_range b) as Hrange.
        assert (spec_expected_count b = 0) as H0 by lia.
        apply spec_expected_count_zero in H0.
        rewrite MessageReceived_reserved in Hc by lia.
        injection Hc as <- <- <-. simpl. lia.
      * injection Hc as <- <- <-. simpl. lia.
  - rewrite PushByte_data, (push_data_inv p b Hinv) by lia. simpl.
    match goal with |- context [complete ?q] =>
      pose proof (complete_calls_length q) as Hlen;
      destruct (complete q) as [[v p2] t2] end.
    do 3 eexists. split; [reflexivity|].
    destruct (b =? 0xf0) eqn:E; [lia|]. rewrite andb_false_r.
    exact Hlen.
Qed.

(** C3 (as the source has it).  When a message whose status is in
    [0xf1..0xf7] completes, the returned value is that status, and
    [running_status_] and [expected_data_size_] are 0 afterwards; a data
    byte that follows is then reported by [BozoByte] alone.  When a data
    byte completes a message under status [0xf0], it is dispatched by
    [SysExByte], and the status is kept as running status with one data
    byte expected. *)
Theorem C3_one_shot_status_cleared (D : Device) (p : MidiStreamParser)
    (b : Z) :
  reachable p ->
  0 <= b < 0xf8 ->
  completes_message p b = true ->
  0xf0 <= message_status p b <= 0xf7 ->
  exists p' t,
    PushByte p b = Some (message_status p b, p', t) /\
    data_size_ p' = 0 /\
    if message_status p b =? 0xf0
    then running_status_ p' = 0xf0 /\
         expected_data_size_ p' = 1 /\
         t = [SysExByte b]
    else running_status_ p' = 0 /\
         expected_data_size_ p' = 0 /\
         forall d, 0 <= d < 0x80 ->
           exists p'', PushByte p' d = Some (0, p'', [BozoByte d]).
Proof.
  intros Hreach Hb Hcomp Hstatus.
  pose proof (reachable_inv p Hreach) as Hinv.
  destruct (message_status p b =? 0xf0) eqn:Esx.
  - (* the byte is a data byte of the SysEx stream *)
    unfold completes_message, message_status in *.
    destruct (b >=? 0x80) eqn:Eb.
    { assert (spec_expected_count b = 0) as H0 by lia.
      apply spec_expected_count_zero in H0. lia. }
    assert (Hrs : running_status_ p = 0xf0) by lia.
    pose proof Hinv as [Harr Hpos Hle Hexp Hpend Hnone Hstat].
    destruct Hstat as [_ Heds]; [lia|].
    rewrite Hrs in Heds. change (spec_expected_count 0xf0) with 1 in Heds.
    assert (Hds : data_size_ p = 0) by lia.
    rewrite PushByte_data, (push_data_inv p b Hinv) by lia. simpl.
    unfold complete. simpl. rewrite Hcomp, Hrs, Hds, Heds.
    change (0xf0 >? 0xf0) with false. cbv iota.
    do 2 eexists. split; [reflexivity|]. simpl.
    repeat split.
    rewrite MessageReceived_sysex. unfold data_at. simpl.
    rewrite list_lookup_insert_eq by lia. reflexivity.
  - assert (Hpush : exists p' t,
               PushByte p b = Some (message_status p b, p', t) /\
               running_status_ p' = 0 /\ expected_data_size_ p' = 0 /\
               data_size_ p' = 0).
    { unfold completes_message, message_status in *.
      destruct (b >=? 0x80) eqn:Eb.
      - rewrite PushByte_status by lia.
        unfold push_status, complete. simpl.
        rewrite expected_size_spec by lia.
        destruct (0 >=? spec_expected_count b) eqn:E0; [|lia].
        destruct (b >? 0xf0) eqn:E1; [|lia].
        do 2 eexists. split; [reflexivity|]. simpl. auto.
      - rewrite PushByte_data, (push_data_inv p b Hinv) by lia. simpl.
        unfold complete. simpl. rewrite Hcomp.
        destruct (running_status_ p >? 0xf0) eqn:E1; [|lia].
        do 2 eexists. split; [reflexivity|]. simpl. auto. }
    destruct Hpush as (p' & t & Hpush & Hrs & Heds & Hds).
    exists p', t. repeat split; try assumption.
    intros d Hd.
    assert (Hinv' : parser_inv p').
    { apply (PushByte_inv p b (message_status p b) p' t Hinv);
        [unfold is_byte; lia | exact Hpush]. }
    rewrite (orphan_push p' d Hinv' Hrs Hd). eauto.
Qed.

(** C6.  Under running status [0xf0] every status byte [0x80..0xf7] makes
    [SysExEnd()] its first call, before anything the new status brings,
    whatever the device.  On [F0 01 90 3C 40] a fresh parser of a device
    that accepts channel 0 calls [SysExStart()], [SysExByte(1)],
    [SysExEnd()], [NoteOn(0,60,64)]. *)
Theorem C6_implicit_sysex_end (D : Device) (p : MidiStreamParser)
    (b g0 g1 g2 : Z) :
  running_status_ p = 0xf0 ->
  0x80 <= b <= 0xf7 ->
  (exists v p' t, PushByte p b = Some (v, p', SysExEnd :: t)) /\
  (CheckChannel 0 <> 0 ->
   feed (new_parser g0 g1 g2) [0xf0; 0x01; 0x90; 0x3c; 0x40] =
     Some ([0; 0xf0; 0; 0; 0x90],
           {| running_status_ := 0x90;
              data_ := [0x3c; 0x40; g2];
              data_size_ := 0;
              expected_data_size_ := 2 |},
           [SysExStart; SysExByte 1; SysExEnd; NoteOn 0 60 64])).
Proof.
  intros Hrs Hb. split.
  - rewrite PushByte_status by lia.
    unfold push_status. simpl. rewrite Hrs. simpl.
    match goal with |- context [complete ?q] =>
      destruct (complete q) as [[v p2] t2] end.
    eauto.
  - intros Hcc. destruct D as [check]. simpl in Hcc.
    vm_compute. destruct (check 0); [congruence | reflexivity | reflexivity].
Qed.

(** C7.  From a reachable state, the bytes [0x90 + ch], [d0], [d1] and then,
    with the status left out, [e0], [e1] dispatch one note message each on
    a channel [ch] the device accepts: [NoteOn(ch, note, velocity)] when
    the velocity byte is not 0 and [NoteOff(ch, note, 0)] when it is.  On
    [90 3C 40 3C 00] a fresh parser of a device that accepts channel 0
    calls [NoteOn(0,60,64)] and then [NoteOff(0,60,0)]. *)
Theorem C7_note_on_zero_velocity (D : Device) (p : MidiStreamParser)
    (ch d0 d1 e0 e1 g0 g1 g2 : Z) :
  reachable p ->
  0 <= ch < 16 ->
  CheckChannel ch <> 0 ->
  0 <= d0 < 0x80 -> 0 <= d1 < 0x80 ->
  0 <= e0 < 0x80 -> 0 <= e1 < 0x80 ->
  let note n v := if v =? 0 then NoteOff ch n 0 else NoteOn ch n v in
  feed p [0x90 + ch; d0; d1; e0; e1] =
    Some ([0; 0; 0x90 + ch; 0; 0x90 + ch],
          {| running_status_ := 0x90 + ch;
             data_ := <[1%nat := e1]> (<[0%nat := e0]>
                        (<[1%nat := d1]> (<[0%nat := d0]> (data_ p))));
             data_size_ := 0;
             expected_data_size_ := 2 |},
          (if running_status_ p =? 0xf0 then [SysExEnd] else [])
            ++ [note d0 d1; note e0 e1]) /\
  (CheckChannel 0 <> 0 ->
   feed (new_parser g0 g1 g2) [0x90; 0x3c; 0x40; 0x3c; 0x00] =
     Some ([0; 0; 0x90; 0; 0x90],
           {| running_status_ := 0x90;
              data_ := [0x3c; 0x00; g2];
              data_size_ := 0;
              expected_data_size_ := 2 |},
           [NoteOn 0 60 64; NoteOff 0 60 0])).
Proof.
  intros Hreach Hch Hcc Hd0 Hd1 He0 He1 note.
  assert (Hgen : forall q c x0 x1 y0 y1,
    length (data_ q) = 3%nat -> 0 <= c < 16 -> CheckChannel c <> 0 ->
    x0 < 0x80 -> x1 < 0x80 -> y0 < 0x80 -> y1 < 0x80 ->
    feed q [0x90 + c; x0; x1; y0; y1] =
      Some ([0; 0; 0x90 + c; 0; 0x90 + c],
            {| running_status_ := 0x90 + c;
               data_ := <[1%nat := y1]> (<[0%nat := y0]>
                          (<[1%nat := x1]> (<[0%nat := x0]> (data_ q))));
               data_size_ := 0;
               expected_data_size_ := 2 |},
            (if running_status_ q =? 0xf0 then [SysExEnd] else [])
              ++ [if x1 =? 0 then NoteOff c x0 0 else NoteOn c x0 x1;
                  if y1 =? 0 then NoteOff c y0 0 else NoteOn c y0 y1])).
  { clear. intros q c x0 x1 y0 y1 Harr Hc Hcc Hx0 Hx1 Hy0 Hy1.
    change [0x90 + c; x0; x1; y0; y1]
      with ((0x90 + c) :: [x0; x1] ++ [y0; y1]).
    rewrite feed_cons, push_note_status, feed_app by lia.
    match goal with |- context [feed ?q1 [x0; x1]] =>
      destruct (feed_two_data_bytes q1 x0 x1) as (-> & Hat0 & Hat1);
        cbn [running_status_ data_ data_size_ expected_data_size_];
        try lia
    end.
    match goal with |- context [feed ?q2 [y0; y1]] =>
      destruct (feed_two_data_bytes q2 y0 y1) as (-> & Hbt0 & Hbt1);
        cbn [running_status_ data_ data_size_ expected_data_size_];
        rewrite ?length_insert; try lia
    end.
    cbn [running_status_ data_ data_size_ expected_data_size_] in *.
    rewrite !MessageReceived_note_on by assumption.
    rewrite Hat0, Hat1, Hbt0, Hbt1. reflexivity. }
  split.
  - apply Hgen; try lia; try assumption.
    apply (inv_array p (reachable_inv p Hreach)).
  - intros Hcc0.
    apply (Hgen (new_parser g0 g1 g2) 0 0x3c 0x40 0x3c 0x00);
      try lia; try assumption. reflexivity.
Qed.

(** C9.  When the byte [b] completes a channel message (status in
    [0x80..0xef]) whose channel [CheckChannel] rejects, [PushByte] makes no
    call at all, and it returns the value and leaves the state,
    [running_status_], [data_], [data_size_] and [expected_data_size_], that
    it returns and leaves with any other device, one that accepts the
    channel included. *)
Theorem C9_channel_gating (D1 D2 : Device) (p : MidiStreamParser) (b : Z) :
  reachable (D := D1) p ->
  0 <= b < 0xf8 ->
  completes_message p b = true ->
  0x80 <= message_status p b < 0xf0 ->
  CheckChannel (Device := D1) (Z.land (message_status p b) 0x0f) = 0 ->
  exists p',
    PushByte (D := D1) p b = Some (message_status p b, p', []) /\
    exists t2, PushByte (D := D2) p b = Some (message_status p b, p', t2).
Proof.
  intros Hreach Hb Hcomp Hstatus Hcc.
  pose proof (reachable_inv p Hreach) as Hinv.
  assert (H1 : exists p',
             PushByte (D := D1) p b = Some (message_status p b, p', [])).
  { unfold completes_message, message_status in *.
    destruct (b >=? 0x80) eqn:Eb.
    - assert (spec_expected_count b = 0) as H0 by lia.
      apply spec_expected_count_zero in H0. lia.
    - rewrite PushByte_data, (push_data_inv p b Hinv) by lia. simpl.
      unfold complete. simpl. rewrite Hcomp.
      rewrite MessageReceived_rejected by assumption.
      eauto. }
  destruct H1 as [p' H1]. exists p'. split; [exact H1|].
  pose proof (PushByte_device_independent D2 D1 p b) as Hind.
  rewrite H1 in Hind. simpl in Hind.
  destruct (PushByte (D := D2) p b) as [[[v2 p2] t2]|]; simpl in Hind;
    [|discriminate].
  injection Hind as -> ->. eauto.
Qed.

(** ** The claims at concrete inputs *)

Lemma sysex_open_reachable (D : Device) : reachable sysex_open.
Proof.
  apply (reachable_push (new_parser 0 0 0) 0xf0 0 sysex_open [SysExStart]).
  - apply reachable_new.
  - unfold is_byte. lia.
  - reflexivity.
Defined.

Lemma note_pending_reachable (D : Device) : reachable note_pending.
Proof.
  apply (feed_reachable (new_parser 0 0 0) [0x90; 0x3c] [0; 0] note_pending []).
  - apply reachable_new.
  - repeat constructor; unfold is_byte; lia.
  - reflexivity.
Defined.

(** C2 as first stated fails: under running status [0xf0] the byte [F0]
    makes the two calls [SysExEnd()] and [SysExStart()]. *)
Lemma C2_two_calls_counterexample :
  feed (D := MidiDevice) (new_parser 0 0 0) [0xf0]
    = Some ([0], sysex_open, [SysExStart]) /\
  PushByte (D := MidiDevice) sysex_open 0xf0
    = Some (0, sysex_open, [SysExEnd; SysExStart]) /\
  ~ (forall (D : Device) p b v p' t,
       reachable p -> is_byte b ->
       PushByte p b = Some (v, p', t) -> (length t <= 1)%nat).
Proof.
  split; [reflexivity|]. split; [reflexivity|].
  intros Hclaim.
  specialize (Hclaim MidiDevice sysex_open 0xf0 0 sysex_open
                [SysExEnd; SysExStart] (sysex_open_reachable MidiDevice)).
  simpl in Hclaim.
  assert (2 <= 1)%nat; [|lia].
  apply Hclaim; [unfold is_byte; lia | reflexivity].
Qed.

Lemma C2_calls_per_push_witness :
  reachable (D := MidiDevice) sysex_open /\
  is_byte 0xf0 /\
  exists v p' t,
    PushByte (D := MidiDevice) sysex_open 0xf0 = Some (v, p', t) /\
    t = [SysExEnd; SysExStart].
Proof.
  split; [apply sysex_open_reachable|].
  split; [unfold is_byte; lia|].
  apply (C2_calls_per_push MidiDevice sysex_open 0xf0).
  - apply sysex_open_reachable.
  - unfold is_byte. lia.
  - intros [_ H]. discriminate H.
Defined.

(** C3 as first stated fails for status [0xf0]: when the data byte [01]
    completes a message under running status [0xf0], the status and the
    expected count are kept, and the next data byte is decoded under it. *)
Lemma C3_sysex_status_kept :
  let p' := {| running_status_ := 0xf0;
               data_ := [0x01; 0; 0];
               data_size_ := 0;
               expected_data_size_ := 1 |} in
  completes_message sysex_open 0x01 = true /\
  message_status sysex_open 0x01 = 0xf0 /\
  PushByte (D := MidiDevice) sysex_open 0x01
    = Some (0xf0, p', [SysExByte 1]) /\
  calls_of (PushByte (D := MidiDevice) p' 0x02) = Some [SysExByte 2] /\
  ~ (forall (D : Device) p b,
       reachable p -> 0 <= b < 0xf8 ->
       completes_message p b = true ->
       0xf0 <= message_status p b <= 0xf7 ->
       exists v p' t,
         PushByte p b = Some (v, p', t) /\
         running_status_ p' = 0 /\ expected_data_size_ p' = 0).
Proof.
  intros p'. repeat (split; [reflexivity|]).
  intros Hclaim.
  destruct (Hclaim MidiDevice sysex_open 0x01
              (sysex_open_reachable MidiDevice))
    as (v & q & t & Hpush & Hrs & _).
  - lia.
  - reflexivity.
  - change (message_status sysex_open 0x01) with 0xf0. lia.
  - injection Hpush as _ <- _. discriminate Hrs.
Qed.

Lemma C3_one_shot_status_cleared_witness :
  let p := {| running_status_ := 0xf2;
              data_ := [0x10; 0; 0];
              data_size_ := 1;
              expected_data_size_ := 2 |} in
  feed (D := MidiDevice) (new_parser 0 0 0) [0xf2; 0x10] = Some ([0; 0], p, []) /\
  completes_message p 0x20 = true /\
  message_status p 0x20 = 0xf2 /\
  exists p' t,
    PushByte (D := MidiDevice) p 0x20 = Some (0xf2, p', t) /\
    data_size_ p' = 0 /\
    running_status_ p' = 0 /\
    expected_data_size_ p' = 0 /\
    forall d, 0 <= d < 0x80 ->
      exists p'', PushByte (D := MidiDevice) p' d = Some (0, p'', [BozoByte d]).
Proof.
  intros p. split; [reflexivity|]. split; [reflexivity|].
  split; [reflexivity|].
  apply (C3_one_shot_status_cleared MidiDevice p 0x20).
  - apply (feed_reachable (new_parser 0 0 0) [0xf2; 0x10] [0; 0] p []).
    + apply reachable_new.
    + repeat constructor; unfold is_byte; lia.
    + reflexivity.
  - lia.
  - reflexivity.
  - change (message_status p 0x20) with 0xf2. lia.
Defined.

Lemma C4_realtime_leaves_state_witness :
  let p2 := {| running_status_ := 0x90;
               data_ := [0x3c; 0x40; 0];
               data_size_ := 0;
               expected_data_size_ := 2 |} in
  0xf8 <= 0xf8 <= 0xff /\
  (forall q, PushByte (D := MidiDevice) q 0xf8 = Some (0xf8, q, [Clock])) /\
  feed (D := MidiDevice) (new_parser 0 0 0) [0x90; 0x3c; 0x40]
    = Some ([0; 0; 0x90], p2, [NoteOn 0 60 64]) /\
  feed (D := MidiDevice) (new_parser 0 0 0) [0x90; 0x3c; 0xf8; 0x40]
    = Some ([0; 0; 0xf8; 0x90], p2, [Clock; NoteOn 0 60 64]).
Proof.
  intros p2. split; [lia|].
  apply (C4_realtime_leaves_state MidiDevice (new_parser 0 0 0) 0xf8
           [0x90; 0x3c] [0x40] [0; 0] [0x90] note_pending p2
           [] [NoteOn 0 60 64]).
  - lia.
  - reflexivity.
  - reflexivity.
Defined.

Lemma C6_implicit_sysex_end_witness :
  (exists v p' t,
     PushByte (D := SingleChannelDevice 5) sysex_open 0x90
       = Some (v, p', SysExEnd :: t)) /\
  (exists v p' t,
     PushByte (D := MidiDevice) sysex_open 0x90 = Some (v, p', SysExEnd :: t)) /\
  feed (D := MidiDevice) (new_parser 0 0 0) [0xf0; 0x01; 0x90; 0x3c; 0x40] =
    Some ([0; 0xf0; 0; 0; 0x90],
          {| running_status_ := 0x90;
             data_ := [0x3c; 0x40; 0];
             data_size_ := 0;
             expected_data_size_ := 2 |},
          [SysExStart; SysExByte 1; SysExEnd; NoteOn 0 60 64]).
Proof.
  split.
  - apply (C6_implicit_sysex_end (SingleChannelDevice 5) sysex_open
             0x90 0 0 0).
    + reflexivity.
    + lia.
  - destruct (C6_implicit_sysex_end MidiDevice sysex_open 0x90 0 0 0)
      as [Hgeneral Hexample].
    + reflexivity.
    + lia.
    + split; [exact Hgeneral|]. apply Hexample. simpl. lia.
Defined.

Lemma C7_note_on_zero_velocity_witness :
  feed (D := SingleChannelDevice 5) sysex_open [0x95; 0x3c; 0x40; 0x3e; 0x00] =
    Some ([0; 0; 0x95; 0; 0x95],
          {| running_status_ := 0x95;
             data_ := [0x3e; 0x00; 0];
             data_size_ := 0;
             expected_data_size_ := 2 |},
          [SysExEnd; NoteOn 5 60 64; NoteOff 5 62 0]) /\
  feed (D := MidiDevice) (new_parser 7 8 9) [0x90; 0x3c; 0x40; 0x3c; 0x00] =
    Some ([0; 0; 0x90; 0; 0x90],
          {| running_status_ := 0x90;
             data_ := [0x3c; 0x00; 9];
             data_size_ := 0;
             expected_data_size_ := 2 |},
          [NoteOn 0 60 64; NoteOff 0 60 0]).
Proof.
  split.
  - apply (C7_note_on_zero_velocity (SingleChannelDevice 5) sysex_open
             5 0x3c 0x40 0x3e 0x00 0 0 0).
    + apply sysex_open_reachable.
    + lia.
    + simpl. lia.
    + lia.
    + lia.
    + lia.
    + lia.
  - destruct (C7_note_on_zero_velocity MidiDevice (new_parser 7 8 9)
                0 0x3c 0x40 0x3c 0x00 7 8 9) as [_ Hexample].
    + apply reachable_new.
    + lia.
    + simpl. lia.
    + lia.
    + lia.
    + lia.
    + lia.
    + apply Hexample. simpl. lia.
Defined.

Lemma C8_orphan_data_byte_witness :
  reachable (D := MidiDevice) (new_parser 0 0 0) /\
  exists p',
    PushByte (D := MidiDevice) (new_parser 0 0 0) 0x3c
      = Some (0, p', [BozoByte 0x3c]) /\
    data_size_ p' = 0 /\
    expected_data_size_ p' = 0 /\
    running_status_ p' = 0.
Proof.
  split; [apply reachable_new|].
  apply (C8_orphan_data_byte MidiDevice (new_parser 0 0 0) 0x3c).
  - apply reachable_new.
  - reflexivity.
  - lia.
Defined.

Lemma C9_channel_gating_witness :
  CheckChannel (Device := SingleChannelDevice 5) 0 = 0 /\
  CheckChannel (Device := MidiDevice) 0 = 1 /\
  exists p',
    PushByte (D := SingleChannelDevice 5) note_pending 0x40
      = Some (0x90, p', []) /\
    exists t2,
      PushByte (D := MidiDevice) note_pending 0x40 = Some (0x90, p', t2).
Proof.
  split; [reflexivity|]. split; [reflexivity|].
  apply (C9_channel_gating (SingleChannelDevice 5) MidiDevice
           note_pending 0x40).
  - apply note_pending_reachable.
  - lia.
  - reflexivity.
  - change (message_status note_pending 0x40) with 0x90. lia.
  - reflexivity.
Defined.

Lemma C10_data_buffer_in_bounds_witness :
  Forall is_byte [0x90; 0x3c; 0x40; 0x3c] /\
  exists vs p t,
    feed (D := MidiDevice) (new_parser 0 0 0) [0x90; 0x3c; 0x40; 0x3c]
      = Some (vs, p, t) /\
    data_size_ p <= expected_data_size_ p <= 2 /\
    0 <= data_size_ p < 3 /\
    length (data_ p) = 3%nat /\
    forall b, data_store (data_ p) (data_size_ p) b
              = Some (<[Z.to_nat (data_size_ p) := b]> (data_ p)).
Proof.
  assert (H : Forall is_byte [0x90; 0x3c; 0x40; 0x3c])
    by (repeat constructor; unfold is_byte; lia).
  split; [exact H|].
  apply (C10_data_buffer_in_bounds MidiDevice 0 0 0 _ H).
Defined.

(** * Further properties of [PushByte] and [MessageReceived] *)

Section Progress.

Context {D : Device}.

(** A status byte below [0xf8], whatever the state: the new state and the
    returned value depend on the byte only, the calls begin with the
    implicit end of a SysEx in progress. *)
Lemma push_status_byte (p : MidiStreamParser) (b : Z) :
  0x80 <= b < 0xf8 ->
  PushByte p b =
    Some (if 0xf4 <=? b then b else 0,
          {| running_status_ := if 0xf4 <=? b then 0 else b;
             data_ := data_ p;
             data_size_ := 0;
             expected_data_size_ := spec_expected_count b |},
          implicit_end p
            ++ (if b =? 0xf0 then [SysExStart] else [])
            ++ (if b =? 0xf7 then [SysExEnd] else [])).
Proof.
  intros Hb. rewrite PushByte_status by lia.
  unfold push_status, complete, implicit_end. simpl.
  rewrite expected_size_spec by lia.
  pose proof (spec_expected_count_range b) as Hrange.
  destruct (0xf4 <=? b) eqn:E4.
  - assert (H0 : spec_expected_count b = 0).
    { unfold spec_expected_count.
      repeat match goal with
             | |- context [if ?c then _ else _] => destruct c eqn:?
             end; lia. }
    rewrite H0. change (0 >=? 0) with true. cbv iota.
    destruct (b >? 0xf0) eqn:E0; [|lia].
    destruct (b =? 0xf0) eqn:Ef0; [lia|].
    destruct (b =? 0xf7) eqn:Ef7.
    + assert (b = 0xf7) as -> by lia. rewrite <- app_assoc. reflexivity.
    + rewrite MessageReceived_reserved by lia. rewrite <- app_assoc.
      reflexivity.
  - destruct (0 >=? spec_expected_count b) eqn:E0.
    { assert (spec_expected_count b = 0) as H0 by lia.
      apply spec_expected_count_zero in H0. lia. }
    destruct (b =? 0xf7) eqn:Ef7; [lia|].
    rewrite <- app_assoc. reflexivity.
Qed.

Lemma spec_expected_count_pos (b : Z) :
  1 <= spec_expected_count b -> b < 0xf4.
Proof.
  unfold spec_expected_count.
  repeat match goal with
         | |- context [if ?c then _ else _] => destruct c eqn:?
         end; lia.
Qed.

(** [data_[0]] and [data_[1]] after the write of line 140. *)
Lemma data_at_store (p : MidiStreamParser) (b : Z) rs ds eds :
  length (data_ p) = 3%nat ->
  0 <= data_size_ p <= 1 ->
  let p1 := {| running_status_ := rs;
               data_ := <[Z.to_nat (data_size_ p) := b]> (data_ p);
               data_size_ := ds;
               expected_data_size_ := eds |} in
  data_at p1 0 = (if data_size_ p =? 0 then b else data_at p 0) /\
  data_at p1 1 = (if data_size_ p =? 1 then b else data_at p 1).
Proof.
  intros Harr Hds p1. unfold data_at, p1. simpl.
  destruct (data_ p) as [|x0 [|x1 l]]; try discriminate Harr.
  assert (data_size_ p = 0 \/ data_size_ p = 1) as [-> | ->] by lia;
    split; reflexivity.
Qed.

Lemma new_parser_buffer_inv (g0 g1 g2 : Z) : buffer_inv (new_parser g0 g1 g2).
Proof.
  split; [apply new_parser_inv | simpl; lia | simpl; lia].
Qed.

Lemma PushByte_buffer_inv (p : MidiStreamParser) (b v : Z) p' t :
  buffer_inv p -> is_byte b ->
  PushByte p b = Some (v, p', t) ->
  buffer_inv p'.
Proof.
  intros [Hinv Hstat Hfirst] Hb Hpush.
  pose proof (PushByte_inv p b v p' t Hinv Hb Hpush) as Hinv'.
  split; [exact Hinv'| |].
  - destruct (Z_le_gt_dec 0xf8 b) as [Hrt | Hrt].
    { rewrite PushByte_realtime in Hpush by exact Hrt.
      injection Hpush as _ <- _. exact Hstat. }
    destruct (Z_le_gt_dec 0x80 b) as [Hst | Hst].
    + rewrite push_status_byte in Hpush by lia.
      injection Hpush as _ <- _. simpl.
      destruct (0xf4 <=? b) eqn:E; [lia|]. intros _.
      pose proof (spec_expected_count_range b).
      destruct (Z.eq_dec (spec_expected_count b) 0) as [H0|H0]; [|lia].
      apply spec_expected_count_zero in H0. lia.
    + rewrite PushByte_data, (push_data_inv p b Hinv) in Hpush by lia.
      simpl in Hpush. unfold complete in Hpush. simpl in Hpush.
      destruct (data_size_ p + 1 >=? expected_data_size_ p);
        injection Hpush as _ <- _; simpl; [|exact Hstat].
      destruct (running_status_ p >? 0xf0); [lia | exact Hstat].
  - destruct (Z_le_gt_dec 0xf8 b) as [Hrt | Hrt].
    { rewrite PushByte_realtime in Hpush by exact Hrt.
      injection Hpush as _ <- _. exact Hfirst. }
    destruct (Z_le_gt_dec 0x80 b) as [Hst | Hst].
    + rewrite push_status_byte in Hpush by lia.
      injection Hpush as _ <- _. simpl. lia.
    + rewrite PushByte_data, (push_data_inv p b Hinv) in Hpush by lia.
      simpl in Hpush. unfold complete in Hpush. simpl in Hpush.
      destruct Hinv as [Harr Hpos Hle Hexp Hpend Hnone Hst'].
      destruct (data_size_ p + 1 >=? expected_data_size_ p) eqn:E;
        injection Hpush as _ <- _; simpl; [lia|].
      intros _.
      match goal with |- _ <= data_at ?q _ < _ =>
        destruct (data_at_store p b (running_status_ q) (data_size_ q)
                    (expected_data_size_ q) Harr ltac:(lia)) as [H0 _]
      end.
      simpl in H0. rewrite H0.
      destruct (data_size_ p =? 0) eqn:E0; [unfold is_byte in Hb|]; lia.
Qed.

Lemma reachable_buffer_inv (p : MidiStreamParser) :
  reachable p -> buffer_inv p.
Proof.
  induction 1 as [g0 g1 g2 | p b v p' t _ IH Hb Hpush].
  - apply new_parser_buffer_inv.
  - exact (PushByte_buffer_inv p b v p' t IH Hb Hpush).
Qed.

End Progress.

(** ** What [MessageReceived] reads and passes on *)

Section Arguments.

Context {D : Device}.

Lemma low_nibble_range (st : Z) :
  0 <= st < 256 -> 0 <= Z.land st 0x0f < 16.
Proof.
  intros Hst.
  pose proof (forall_range
                (fun s => (0 <=? Z.land s 0x0f) && (Z.land s 0x0f <? 16))
                0 256 ltac:(vm_compute; reflexivity) st ltac:(lia)) as H.
  simpl in H. lia.
Qed.

(** A status that does not expect two data bytes is a program change, a
    channel aftertouch or a system message. *)
Lemma short_status_high_nibble (st : Z) :
  0x80 <= st < 0xf8 ->
  spec_expected_count st <> 2 ->
  Z.land st 0xf0 = 0xc0 \/ Z.land st 0xf0 = 0xd0 \/ Z.land st 0xf0 = 0xf0.
Proof.
  intros Hst Hcount.
  pose proof (forall_range
                (fun s => (spec_expected_count s =? 2)
                          || (Z.land s 0xf0 =? 0xc0)
                          || (Z.land s 0xf0 =? 0xd0)
                          || (Z.land s 0xf0 =? 0xf0))
                0x80 120 ltac:(vm_compute; reflexivity) st ltac:(lia)) as H.
  simpl in H. lia.
Qed.

(** Those statuses do not read [data_[1]]. *)
Lemma dispatch_short (hi lo d0 d1 d1' : Z) :
  hi = 0xc0 \/ hi = 0xd0 \/ hi = 0xf0 ->
  dispatch hi lo d0 d1 = dispatch hi lo d0 d1'.
Proof. intros [-> | [-> | ->]]; reflexivity. Qed.

Lemma MessageReceived_agree (p q : MidiStreamParser) (st : Z) :
  st = 0 \/ 0x80 <= st < 0xf8 ->
  data_at p 0 = data_at q 0 ->
  (0x80 <= st -> spec_expected_count st = 2 -> data_at p 1 = data_at q 1) ->
  MessageReceived p st = MessageReceived q st.
Proof.
  intros [-> | Hst] H0 H1.
  - rewrite !MessageReceived_no_status, H0. reflexivity.
  - unfold MessageReceived. rewrite H0.
    destruct (Z.eq_dec (spec_expected_count st) 2) as [H2 | H2].
    + rewrite (H1 ltac:(lia) H2). reflexivity.
    + rewrite (dispatch_short _ _ _ (data_at p 1) (data_at q 1)
                 (short_status_high_nibble st Hst H2)).
      reflexivity.
Qed.

(** The calls of the outer switch that name a channel name [lo], and are
    not made from [case 0xf0]. *)
Lemma dispatch_channels (hi lo d0 d1 : Z) (c : call) (ch : Z) :
  In c (dispatch hi lo d0 d1) ->
  call_channel c = Some ch ->
  ch = lo /\ hi <> 0xf0.
Proof.
  unfold dispatch, control_change, system_message.
  repeat match goal with
         | |- context [if ?c then _ else _] => destruct c eqn:?
         end;
    simpl; intros Hin Hch;
    repeat match goal with
           | H : _ \/ _ |- _ => destruct H as [<- | H]
           | H : False |- _ => destruct H
           end;
    simpl in Hch; try discriminate Hch;
    injection Hch as <-; (split; [reflexivity | lia]).
Qed.

Lemma MessageReceived_channels (p : MidiStreamParser) (st : Z)
    (c : call) (ch : Z) :
  In c (MessageReceived p st) ->
  call_channel c = Some ch ->
  ch = Z.land st 0x0f /\ CheckChannel ch <> 0.
Proof.
  unfold MessageReceived. intros Hin Hch.
  assert (Hbozo : forall l,
            In c ((if st =? 0 then [BozoByte (data_at p 0)] else []) ++ l) ->
            In c l).
  { intros l Hl. apply in_app_or in Hl. destruct Hl as [Hl | Hl]; [|exact Hl].
    destruct (st =? 0); simpl in Hl; [|destruct Hl].
    destruct Hl as [<- | []]. discriminate Hch. }
  destruct (Z.land st 0xf0 =? 0xf0) eqn:Ehi; simpl in Hin.
  - apply Hbozo in Hin.
    destruct (dispatch_channels _ _ _ _ c ch Hin Hch) as [_ Hne]. lia.
  - destruct (CheckChannel (Z.land st 0x0f) =? 0) eqn:Ecc.
    + rewrite <- (app_nil_r (if st =? 0 then _ else _)) in Hin.
      apply Hbozo in Hin. destruct Hin.
    + apply Hbozo in Hin.
      destruct (dispatch_channels _ _ _ _ c ch Hin Hch) as [-> _].
      split; [reflexivity | lia].
Qed.

(** A status other than [0xf0] that awaits data dispatches no SysEx call. *)
Lemma MessageReceived_no_sysex (p : MidiStreamParser) (st : Z) (open : bool) :
  0x80 <= st < 0xf4 -> st <> 0xf0 ->
  sysex_track open (MessageReceived p st) = Some open.
Proof.
  intros Hst Hne.
  pose proof (forall_range
                (fun s => (s =? 0xf0)
                          || negb (Z.land s 0xf0 =? 0xf0)
                          || ((1 <=? Z.land s 0x0f) && (Z.land s 0x0f <=? 6)))
                0x80 116 ltac:(vm_compute; reflexivity) st ltac:(lia)) as H.
  simpl in H.
  unfold MessageReceived, dispatch, control_change, system_message.
  destruct (st =? 0) eqn:E0; [lia|].
  repeat match goal with
         | |- context [if ?c then _ else _] => destruct c eqn:?
         end; try reflexivity; lia.
Qed.

Lemma sysex_track_app (open : bool) (t1 t2 : list call) :
  sysex_track open (t1 ++ t2) =
    match sysex_track open t1 with
    | Some open' => sysex_track open' t2
    | None => None
    end.
Proof.
  revert open. induction t1 as [|c t1 IH]; intros open; [reflexivity|].
  destruct c; simpl; try apply IH; destruct open; try reflexivity; apply IH.
Qed.

End Arguments.

(** ** One step, seen from two parsers and from the device *)

Section Steps.

Context {D : Device}.

Lemma status_of_inv (p : MidiStreamParser) :
  parser_inv p ->
  running_status_ p = 0 \/ 0x80 <= running_status_ p < 0xf8.
Proof.
  intros Hinv.
  destruct (Z.eq_dec (running_status_ p) 0) as [H0 | H0]; [left; exact H0|].
  right. apply (inv_status p Hinv H0).
Qed.

Lemma PushByte_same_progress (p q : MidiStreamParser) (b : Z) :
  buffer_inv p -> buffer_inv q -> same_progress p q -> is_byte b ->
  exists v t p' q',
    PushByte p b = Some (v, p', t) /\
    PushByte q b = Some (v, q', t) /\
    same_progress p' q'.
Proof.
  intros [Hp Hps Hpf] [Hq Hqs Hqf] [Hrs Hds Heds Hfirst] Hb.
  destruct (Z_le_gt_dec 0xf8 b) as [Hrt | Hrt].
  { unfold is_byte in Hb.
    rewrite !PushByte_realtime, !MessageReceived_realtime by lia.
    do 4 eexists. repeat split; try reflexivity; assumption. }
  destruct (Z_le_gt_dec 0x80 b) as [Hst | Hst].
  { rewrite !push_status_byte by lia. unfold implicit_end. rewrite Hrs.
    do 4 eexists. split; [reflexivity|]. split; [reflexivity|].
    split; simpl; lia. }
  unfold is_byte in Hb.
  rewrite !PushByte_data, (push_data_inv p b Hp), (push_data_inv q b Hq)
    by lia.
  simpl. unfold complete. simpl.
  pose proof Hp as [Harr Hpos Hle Hexp Hpend Hnone Hstat].
  pose proof (inv_array q Hq) as Harr'.
  destruct (data_at_store p b (running_status_ p) (data_size_ p + 1)
              (expected_data_size_ p) Harr ltac:(lia)) as [Hp0 Hp1].
  destruct (data_at_store q b (running_status_ q) (data_size_ q + 1)
              (expected_data_size_ q) Harr' ltac:(lia)) as [Hq0 Hq1].
  simpl in Hp0, Hp1, Hq0, Hq1.
  rewrite <- Hds, <- Heds, <- Hrs in *.
  destruct (data_size_ p + 1 >=? expected_data_size_ p) eqn:E.
  - do 4 eexists. split; [reflexivity|]. split.
    + do 2 f_equal. symmetry. apply MessageReceived_agree.
      * apply status_of_inv, Hp.
      * rewrite Hp0, Hq0.
        destruct (data_size_ p =? 0) eqn:E0; [reflexivity|].
        apply Hfirst. lia.
      * intros H80 H2. destruct Hstat as [_ Hcount]; [lia|].
        rewrite Hp1, Hq1.
        destruct (data_size_ p =? 1) eqn:E1; [reflexivity | lia].
    + split; simpl; lia.
  - do 4 eexists. split; [reflexivity|]. split; [reflexivity|].
    split; simpl; try lia.
    intros _. rewrite Hp0, Hq0.
    destruct (data_size_ p =? 0) eqn:E0; [reflexivity | lia].
Qed.

Lemma feed_same_progress (bytes : list Z) :
  Forall is_byte bytes ->
  forall p q,
    buffer_inv p -> buffer_inv q -> same_progress p q ->
    exists vs t p' q',
      feed p bytes = Some (vs, p', t) /\
      feed q bytes = Some (vs, q', t) /\
      same_progress p' q'.
Proof.
  induction 1 as [|b bytes Hb _ IH]; intros p q Hp Hq Hsame.
  - exists [], [], p, q. repeat split; try reflexivity; apply Hsame.
  - destruct (PushByte_same_progress p q b Hp Hq Hsame Hb)
      as (v & t & p1 & q1 & Hpp & Hpq & Hsame1).
    destruct (IH p1 q1
                (PushByte_buffer_inv p b v p1 t Hp Hb Hpp)
                (PushByte_buffer_inv q b v q1 t Hq Hb Hpq) Hsame1)
      as (vs & t' & p2 & q2 & Hfp & Hfq & Hsame2).
    exists (v :: vs), (t ++ t'), p2, q2.
    rewrite !feed_cons, Hpp, Hpq, Hfp, Hfq.
    repeat split; try reflexivity; apply Hsame2.
Qed.

Lemma PushByte_calls_channels (p : MidiStreamParser) (b v : Z) p' t :
  buffer_inv p -> is_byte b ->
  PushByte p b = Some (v, p', t) ->
  Forall (fun c => forall ch, call_channel c = Some ch ->
                              0 <= ch < 16 /\ CheckChannel ch <> 0) t.
Proof.
  intros [Hp Hps Hpf] Hb Hpush. unfold is_byte in Hb.
  apply Forall_forall. intros c Hin ch Hch.
  apply list_elem_of_In in Hin.
  destruct (Z_le_gt_dec 0xf8 b) as [Hrt | Hrt].
  { rewrite PushByte_realtime in Hpush by lia.
    injection Hpush as _ _ <-.
    destruct (MessageReceived_channels p b c ch Hin Hch) as [-> Hcc].
    split; [apply low_nibble_range; lia | exact Hcc]. }
  destruct (Z_le_gt_dec 0x80 b) as [Hst | Hst].
  { rewrite push_status_byte in Hpush by lia.
    injection Hpush as _ _ <-. unfold implicit_end in Hin.
    repeat match type of Hin with
           | context [if ?c then _ else _] => destruct c
           end; simpl in Hin;
      repeat match goal with
             | H : _ \/ _ |- _ => destruct H as [<- | H]
             | H : False |- _ => destruct H
             end; discriminate Hch. }
  rewrite PushByte_data, (push_data_inv p b Hp) in Hpush by lia.
  simpl in Hpush. unfold complete in Hpush. simpl in Hpush.
  destruct (data_size_ p + 1 >=? expected_data_size_ p) eqn:E;
    injection Hpush as _ _ <-; [|destruct Hin].
  destruct (MessageReceived_channels _ _ c ch Hin Hch) as [-> Hcc].
  split; [|exact Hcc].
  apply low_nibble_range. destruct (status_of_inv p Hp); lia.
Qed.

Lemma realtime_call_no_sysex (b : Z) (open : bool) :
  sysex_track open (realtime_call b) = Some open.
Proof.
  unfold realtime_call.
  repeat match goal with
         | |- context [if ?c then _ else _] => destruct c
         end; reflexivity.
Qed.

Lemma PushByte_sysex_track (p : MidiStreamParser) (b v : Z) p' t :
  buffer_inv p -> is_byte b ->
  PushByte p b = Some (v, p', t) ->
  sysex_track (running_status_ p =? 0xf0) t
    = Some (running_status_ p' =? 0xf0).
Proof.
  intros [Hp Hps Hpf] Hb Hpush. unfold is_byte in Hb.
  destruct (Z_le_gt_dec 0xf8 b) as [Hrt | Hrt].
  { rewrite PushByte_realtime, MessageReceived_realtime in Hpush by lia.
    injection Hpush as _ <- <-. apply realtime_call_no_sysex. }
  destruct (Z_le_gt_dec 0x80 b) as [Hst | Hst].
  { rewrite push_status_byte in Hpush by lia.
    injection Hpush as _ <- <-. unfold implicit_end. simpl.
    destruct (0xf4 <=? b) eqn:E4; destruct (b =? 0xf0) eqn:E0;
      destruct (b =? 0xf7) eqn:E7; try lia;
      destruct (running_status_ p =? 0xf0); reflexivity. }
  rewrite PushByte_data, (push_data_inv p b Hp) in Hpush by lia.
  simpl in Hpush. unfold complete in Hpush. simpl in Hpush.
  pose proof Hp as [Harr Hpos Hle Hexp Hpend Hnone Hstat].
  destruct (data_size_ p + 1 >=? expected_data_size_ p) eqn:E;
    injection Hpush as _ <- <-; simpl; [|reflexivity].
  destruct (Z.eq_dec (running_status_ p) 0) as [H0 | H0].
  { rewrite H0, MessageReceived_no_status. reflexivity. }
  destruct (Z.eq_dec (running_status_ p) 0xf0) as [Hf0 | Hf0].
  { rewrite Hf0, MessageReceived_sysex. reflexivity. }
  destruct (Hstat H0) as [Hrange Hcount].
  specialize (Hps H0). rewrite Hcount in Hps.
  apply spec_expected_count_pos in Hps.
  rewrite MessageReceived_no_sysex by lia.
  destruct (running_status_ p >? 0xf0) eqn:Egt; [|reflexivity].
  f_equal. lia.
Qed.

(** A property of the calls of every step holds of the calls of a stream. *)
Lemma feed_calls_Forall (P : call -> Prop) :
  (forall p b v p' t, buffer_inv p -> is_byte b ->
                      PushByte p b = Some (v, p', t) -> Forall P t) ->
  forall bytes, Forall is_byte bytes ->
  forall p, buffer_inv p ->
  exists vs p' t, feed p bytes = Some (vs, p', t) /\ Forall P t.
Proof.
  intros Hstep bytes. induction 1 as [|b bytes Hb _ IH]; intros p Hp.
  - exists [], p, []. split; [reflexivity | constructor].
  - destruct (PushByte_total p b (binv_inv p Hp)) as (v & p1 & t1 & Hpush).
    destruct (IH p1 (PushByte_buffer_inv p b v p1 t1 Hp Hb Hpush))
      as (vs & p2 & t2 & Hfeed & Hall).
    exists (v :: vs), p2, (t1 ++ t2).
    rewrite feed_cons, Hpush, Hfeed. split; [reflexivity|].
    apply Forall_app. split; [|exact Hall].
    exact (Hstep p b v p1 t1 Hp Hb Hpush).
Qed.

End Steps.

(** ** Whole messages *)

Section Messages.

Context {D : Device}.

(** A channel status byte: data is awaited, nothing is returned. *)
Lemma push_channel_status (p : MidiStreamParser) (st : Z) :
  0x80 <= st < 0xf0 ->
  PushByte p st =
    Some (0,
          {| running_status_ := st;
             data_ := data_ p;
             data_size_ := 0;
             expected_data_size_ := spec_expected_count st |},
          implicit_end p).
Proof.
  intros Hst. rewrite push_status_byte by lia.
  destruct (0xf4 <=? st) eqn:E4; [lia|].
  destruct (st =? 0xf0) eqn:E0; [lia|].
  destruct (st =? 0xf7) eqn:E7; [lia|].
  rewrite !app_nil_r. reflexivity.
Qed.

Lemma channel_status_nibbles (hi ch : Z) :
  In hi [0x80; 0x90; 0xa0; 0xb0; 0xc0; 0xd0; 0xe0] ->
  0 <= ch < 16 ->
  Z.land (hi + ch) 0xf0 = hi /\ Z.land (hi + ch) 0x0f = ch.
Proof.
  intros Hhi Hch. simpl in Hhi.
  destruct Hhi as [<- | [<- | [<- | [<- | [<- | [<- | [<- | []]]]]]]];
    (split; apply Z.eqb_eq;
     [ apply (forall_range (fun c => Z.land (_ + c) 0xf0 =? _) 0 16);
       [vm_compute; reflexivity | lia]
     | apply (forall_range (fun c => Z.land (_ + c) 0x0f =? c) 0 16);
       [vm_compute; reflexivity | lia] ]).
Qed.

(** On an accepted channel [MessageReceived] reaches the outer switch. *)
Lemma MessageReceived_channel_status (p : MidiStreamParser) (hi ch : Z) :
  In hi [0x80; 0x90; 0xa0; 0xb0; 0xc0; 0xd0; 0xe0] ->
  0 <= ch < 16 ->
  CheckChannel ch <> 0 ->
  MessageReceived p (hi + ch) = dispatch hi ch (data_at p 0) (data_at p 1).
Proof.
  intros Hhi Hch Hcc.
  destruct (channel_status_nibbles hi ch Hhi Hch) as [Hh Hl].
  unfold MessageReceived. rewrite Hh, Hl.
  assert (Hne : (hi + ch =? 0) = false).
  { simpl in Hhi. lia. }
  rewrite Hne.
  destruct (CheckChannel ch =? 0) eqn:E; [lia|].
  rewrite andb_false_r. reflexivity.
Qed.

(** Two data bytes at a message boundary, whatever the status that expects
    them. *)
Lemma feed_data_pair (p : MidiStreamParser) (d0 d1 : Z) :
  length (data_ p) = 3%nat ->
  data_size_ p = 0 ->
  expected_data_size_ p = 2 ->
  d0 < 0x80 -> d1 < 0x80 ->
  let one_shot := running_status_ p >? 0xf0 in
  let p' := {| running_status_ := if one_shot then 0 else running_status_ p;
               data_ := <[1%nat := d1]> (<[0%nat := d0]> (data_ p));
               data_size_ := 0;
               expected_data_size_ := if one_shot then 0 else 2 |} in
  feed p [d0; d1] =
    Some ([0; running_status_ p], p',
          MessageReceived p' (running_status_ p)) /\
  data_at p' 0 = d0 /\ data_at p' 1 = d1.
Proof.
  intros Harr Hds Heds Hd0 Hd1 one_shot p'. split.
  - rewrite feed_cons.
    rewrite PushByte_data, push_data_bounds by lia.
    cbn [mbind option_bind]. unfold complete at 1.
    cbn [running_status_ data_ data_size_ expected_data_size_].
    rewrite Hds, Heds.
    change (0 + 1 >=? 2) with false. cbv iota beta.
    rewrite feed_cons.
    rewrite PushByte_data, push_data_bounds
      by (cbn [running_status_ data_ data_size_ expected_data_size_];
          rewrite ?length_insert; lia).
    cbn [mbind option_bind]. unfold complete.
    cbn [running_status_ data_ data_size_ expected_data_size_].
    change (0 + 1 + 1 >=? 2) with true. cbv iota beta.
    cbn [feed]. rewrite !app_nil_r. reflexivity.
  - unfold data_at, p'. simpl.
    destruct (data_ p) as [|x0 [|x1 l]]; try discriminate Harr.
    split; reflexivity.
Qed.

(** Data bytes under a running status that expects one and is kept: one
    message per byte. *)
Lemma feed_one_byte_messages (f : Z -> call) (st : Z) (payload : list Z) :
  st <= 0xf0 ->
  (forall q, MessageReceived q st = [f (data_at q 0)]) ->
  Forall (fun d => d < 0x80) payload ->
  forall p,
    length (data_ p) = 3%nat ->
    running_status_ p = st ->
    data_size_ p = 0 ->
    expected_data_size_ p = 1 ->
    exists p',
      feed p payload = Some (map (fun _ => st) payload, p', map f payload) /\
      length (data_ p') = 3%nat /\
      running_status_ p' = st /\
      data_size_ p' = 0 /\
      expected_data_size_ p' = 1.
Proof.
  intros Hst Hcall. induction 1 as [|d payload Hd _ IH];
    intros p Harr Hrs Hds Heds.
  - exists p. repeat split; try reflexivity; assumption.
  - rewrite feed_cons.
    rewrite PushByte_data, push_data_bounds by lia.
    cbn [mbind option_bind]. unfold complete.
    cbn [running_status_ data_ data_size_ expected_data_size_].
    rewrite Hds, Heds, Hrs.
    change (0 + 1 >=? 1) with true. cbv iota.
    destruct (st >? 0xf0) eqn:E; [lia|].
    rewrite Hcall. unfold data_at at 1.
    cbn [running_status_ data_ data_size_ expected_data_size_].
    change (Z.to_nat 0) with 0%nat.
    rewrite list_lookup_insert_eq by lia. cbn [default].
    match goal with |- context [feed ?q payload] =>
      destruct (IH q) as (p' & Hfeed & Hrest);
        cbn [running_status_ data_ data_size_ expected_data_size_];
        rewrite ?length_insert; try reflexivity; try assumption
    end.
    rewrite Hfeed. exists p'. split; [reflexivity | exact Hrest].
Qed.

(** Data bytes with no running status: one [BozoByte] per byte. *)
Lemma feed_orphans (payload : list Z) :
  Forall (fun d => 0 <= d < 0x80) payload ->
  forall p,
    parser_inv p ->
    running_status_ p = 0 ->
    exists p',
      feed p payload
        = Some (map (fun _ => 0) payload, p', map BozoByte payload) /\
      parser_inv p' /\
      running_status_ p' = 0.
Proof.
  induction 1 as [|d payload Hd _ IH]; intros p Hinv Hrs.
  - exists p. split; [reflexivity | split; assumption].
  - rewrite feed_cons.
    pose proof (orphan_push p d Hinv Hrs Hd) as Hpush. rewrite Hpush.
    match goal with |- context [feed ?q payload] =>
      destruct (IH q) as (p' & Hfeed & Hrest);
        [ apply (PushByte_inv p d _ _ _ Hinv ltac:(unfold is_byte; lia) Hpush)
        | reflexivity | ]
    end.
    rewrite Hfeed. exists p'. split; [reflexivity | exact Hrest].
Qed.

(** Data bytes under the running status of a channel the device rejects:
    no call. *)
Lemma feed_rejected (payload : list Z) :
  Forall (fun d => 0 <= d < 0x80) payload ->
  forall p,
    parser_inv p ->
    0x80 <= running_status_ p < 0xf0 ->
    CheckChannel (Z.land (running_status_ p) 0x0f) = 0 ->
    exists vs p',
      feed p payload = Some (vs, p', []) /\
      running_status_ p' = running_status_ p.
Proof.
  induction 1 as [|d payload Hd _ IH]; intros p Hinv Hrs Hcc.
  - exists [], p. split; reflexivity.
  - rewrite feed_cons.
    destruct (PushByte_total p d Hinv) as (v & p1 & t1 & Hpush).
    pose proof (PushByte_inv p d v p1 t1 Hinv
                  ltac:(unfold is_byte; lia) Hpush) as Hinv1.
    rewrite Hpush.
    rewrite PushByte_data, (push_data_inv p d Hinv) in Hpush by lia.
    simpl in Hpush. unfold complete in Hpush. simpl in Hpush.
    assert (Hstep : t1 = [] /\ running_status_ p1 = running_status_ p).
    { destruct (data_size_ p + 1 >=? expected_data_size_ p);
        injection Hpush as _ <- <-; simpl; [|split; reflexivity].
      rewrite MessageReceived_rejected by assumption.
      destruct (running_status_ p >? 0xf0) eqn:E; [lia|].
      split; reflexivity. }
    destruct Hstep as [-> Hrs1].
    destruct (IH p1 Hinv1) as (vs & p' & Hfeed & Hrs');
      [rewrite Hrs1; assumption | rewrite Hrs1; assumption |].
    rewrite Hfeed. exists (v :: vs), p'.
    split; [reflexivity | congruence].
Qed.

End Messages.

Section MoreMessages.

Context {D : Device}.

(** A channel status that expects two data bytes, then the two bytes. *)
Lemma feed_channel_pair (p : MidiStreamParser) (hi ch d0 d1 : Z) :
  In hi [0x80; 0x90; 0xa0; 0xb0; 0xe0] ->
  0 <= ch < 16 ->
  CheckChannel ch <> 0 ->
  length (data_ p) = 3%nat ->
  d0 < 0x80 -> d1 < 0x80 ->
  feed p [hi + ch; d0; d1] =
    Some ([0; 0; hi + ch],
          {| running_status_ := hi + ch;
             data_ := <[1%nat := d1]> (<[0%nat := d0]> (data_ p));
             data_size_ := 0;
             expected_data_size_ := 2 |},
          implicit_end p ++ dispatch hi ch d0 d1).
Proof.
  intros Hhi Hch Hcc Harr Hd0 Hd1.
  assert (Hhi7 : In hi [0x80; 0x90; 0xa0; 0xb0; 0xc0; 0xd0; 0xe0]).
  { simpl in *. tauto. }
  assert (Hst : 0x80 <= hi + ch < 0xf0 /\ spec_expected_count (hi + ch) = 2).
  { simpl in Hhi. unfold spec_expected_count.
    repeat match goal with
           | |- context [if ?c then _ else _] => destruct c eqn:?
           end; lia. }
  destruct Hst as [Hst Hcount].
  rewrite feed_cons, push_channel_status, Hcount by exact Hst.
  match goal with |- context [feed ?q [d0; d1]] =>
    destruct (feed_data_pair q d0 d1) as (Hfeed & Hat0 & Hat1);
      cbn [running_status_ data_ data_size_ expected_data_size_] in *;
      try reflexivity; try assumption
  end.
  rewrite Hfeed.
  assert (Hone : (hi + ch >? 0xf0) = false) by lia.
  rewrite Hone in *.
  rewrite (MessageReceived_channel_status _ hi ch Hhi7 Hch Hcc), Hat0, Hat1.
  reflexivity.
Qed.

(** A one-shot status that awaits data makes no call when it completes. *)
Lemma MessageReceived_system_common (p : MidiStreamParser) (st : Z) :
  0xf1 <= st <= 0xf3 ->
  MessageReceived p st = [].
Proof.
  intros Hst. each_byte st 0xf1 3%nat; reflexivity.
Qed.

End MoreMessages.

(** ** Properties beyond the claims *)

(** X1.  The values returned and the calls made for a stream of bytes do not
    depend on what the uninitialised [data_] held at construction; nor do
    the scalar fields reached. *)
Theorem X1_uninitialised_buffer_unobserved (D : Device)
    (g0 g1 g2 h0 h1 h2 : Z) (bytes : list Z) :
  Forall is_byte bytes ->
  exists vs t p q,
    feed (new_parser g0 g1 g2) bytes = Some (vs, p, t) /\
    feed (new_parser h0 h1 h2) bytes = Some (vs, q, t) /\
    same_progress p q.
Proof.
  intros Hbytes.
  apply (feed_same_progress bytes Hbytes);
    try apply new_parser_buffer_inv.
  split; simpl; lia.
Qed.

(** X2.  A status byte below [0xf8] resynchronises the parser: from any two
    reachable states, the same bytes that begin with it give the same
    returned values and, after the implicit [SysExEnd] of each state, the
    same calls. *)
Theorem X2_status_byte_resynchronises (D : Device)
    (p q : MidiStreamParser) (b : Z) (rest : list Z) :
  reachable p -> reachable q ->
  0x80 <= b < 0xf8 ->
  Forall is_byte rest ->
  exists vs t p' q',
    feed p (b :: rest) = Some (vs, p', implicit_end p ++ t) /\
    feed q (b :: rest) = Some (vs, q', implicit_end q ++ t) /\
    same_progress p' q'.
Proof.
  intros Hp Hq Hb Hrest.
  apply reachable_buffer_inv in Hp, Hq.
  assert (Hbyte : is_byte b) by (unfold is_byte; lia).
  pose proof (push_status_byte p b Hb) as Hpp.
  pose proof (push_status_byte q b Hb) as Hpq.
  destruct (feed_same_progress rest Hrest _ _
              (PushByte_buffer_inv p b _ _ _ Hp Hbyte Hpp)
              (PushByte_buffer_inv q b _ _ _ Hq Hbyte Hpq))
    as (vs & t & p' & q' & Hfp & Hfq & Hsame).
  { split; simpl; lia. }
  do 4 eexists.
  rewrite !feed_cons, Hpp, Hpq, Hfp, Hfq, <- !app_assoc.
  repeat split; try reflexivity; apply Hsame.
Qed.

(** X4.  Every call that names a channel names one in [0..15] that
    [CheckChannel] accepts. *)
Theorem X4_calls_on_accepted_channels (D : Device) (p : MidiStreamParser)
    (bytes : list Z) :
  reachable p ->
  Forall is_byte bytes ->
  exists vs p' t,
    feed p bytes = Some (vs, p', t) /\
    Forall (fun c => forall ch, call_channel c = Some ch ->
                                0 <= ch < 16 /\ CheckChannel ch <> 0) t.
Proof.
  intros Hp Hbytes.
  apply (feed_calls_Forall _ PushByte_calls_channels
           bytes Hbytes p (reachable_buffer_inv p Hp)).
Qed.

(** X5.  In the calls made for any stream, [SysExByte] comes only after a
    [SysExStart] that no [SysExEnd] has closed, and [SysExStart] never comes
    while a SysEx is open; a SysEx is open exactly while [running_status_]
    is [0xf0]. *)
Theorem X5_sysex_calls_bracketed (D : Device) (p : MidiStreamParser)
    (bytes : list Z) :
  reachable p ->
  Forall is_byte bytes ->
  exists vs p' t,
    feed p bytes = Some (vs, p', t) /\
    sysex_track (running_status_ p =? 0xf0) t
      = Some (running_status_ p' =? 0xf0).
Proof.
  intros Hp Hbytes. apply reachable_buffer_inv in Hp.
  revert p Hp. induction Hbytes as [|b bytes Hb _ IH]; intros p Hp.
  - exists [], p, []. split; reflexivity.
  - destruct (PushByte_total p b (binv_inv p Hp)) as (v & p1 & t1 & Hpush).
    destruct (IH p1 (PushByte_buffer_inv p b v p1 t1 Hp Hb Hpush))
      as (vs & p2 & t2 & Hfeed & Htrack).
    exists (v :: vs), p2, (t1 ++ t2).
    rewrite feed_cons, Hpush, Hfeed. split; [reflexivity|].
    rewrite sysex_track_app, (PushByte_sysex_track p b v p1 t1 Hp Hb Hpush).
    exact Htrack.
Qed.

(** X6.  Between two calls of [PushByte] the parser is in one of two shapes:
    no running status and both counts 0; or a running status in
    [0x80..0xf3] with the expected count that status asks for (1 or 2) and
    fewer data bytes received than expected. *)
Theorem X6_state_between_calls (D : Device) (p : MidiStreamParser) :
  reachable p ->
  (running_status_ p = 0 /\ data_size_ p = 0 /\ expected_data_size_ p = 0) \/
  (0x80 <= running_status_ p <= 0xf3 /\
   expected_data_size_ p = spec_expected_count (running_status_ p) /\
   1 <= expected_data_size_ p <= 2 /\
   0 <= data_size_ p < expected_data_size_ p).
Proof.
  intros Hp.
  destruct (reachable_buffer_inv p Hp) as [Hinv Hstat _].
  destruct Hinv as [Harr Hpos Hle Hexp Hpend Hnone Hst].
  destruct (Z.eq_dec (running_status_ p) 0) as [H0 | H0].
  - left. specialize (Hnone H0). lia.
  - right. destruct (Hst H0) as [Hrange Hcount]. specialize (Hstat H0).
    assert (running_status_ p < 0xf4).
    { apply spec_expected_count_pos. rewrite <- Hcount. exact Hstat. }
    lia.
Qed.

(** X7.  The value [PushByte] returns is 0, or the byte itself when the byte
    is [0xf4] or above, or the running status, in [0x80..0xf3], when the
    byte is a data byte: it is never a data byte value other than 0. *)
Theorem X7_returned_value_is_status (D : Device) (p : MidiStreamParser)
    (b : Z) :
  reachable p ->
  is_byte b ->
  exists v p' t,
    PushByte p b = Some (v, p', t) /\
    (v = 0 \/
     (0xf4 <= b /\ v = b) \/
     (b < 0x80 /\ v = running_status_ p /\ 0x80 <= v <= 0xf3)).
Proof.
  intros Hp Hb. unfold is_byte in Hb.
  destruct (reachable_buffer_inv p Hp) as [Hinv Hstat _].
  destruct (Z_le_gt_dec 0xf8 b) as [Hrt | Hrt].
  { rewrite PushByte_realtime by lia. do 3 eexists.
    split; [reflexivity|]. right. left. lia. }
  destruct (Z_le_gt_dec 0x80 b) as [Hst | Hst].
  { rewrite push_status_byte by lia. do 3 eexists.
    split; [reflexivity|].
    destruct (0xf4 <=? b) eqn:E; [right; left; lia | left; reflexivity]. }
  rewrite PushByte_data, (push_data_inv p b Hinv) by lia. simpl.
  unfold complete. simpl.
  destruct (data_size_ p + 1 >=? expected_data_size_ p);
    do 3 eexists; (split; [reflexivity|]); [|left; reflexivity].
  destruct (Z.eq_dec (running_status_ p) 0) as [H0 | H0];
    [left; exact H0 | right; right].
  destruct (inv_status p Hinv H0) as [Hrange Hcount].
  specialize (Hstat H0). rewrite Hcount in Hstat.
  apply spec_expected_count_pos in Hstat. lia.
Qed.

(** X8.  Pitch bend on an accepted channel: the status [0xe0 + ch] and the
    data bytes [d0], [d1] make the call [PitchBend(ch, d0 + 128 * d1)]; the
    16-bit sum never wraps. *)
Theorem X8_pitch_bend_value (D : Device) (p : MidiStreamParser)
    (ch d0 d1 : Z) :
  reachable p ->
  0 <= ch < 16 ->
  CheckChannel ch <> 0 ->
  0 <= d0 < 0x80 -> 0 <= d1 < 0x80 ->
  feed p [0xe0 + ch; d0; d1] =
    Some ([0; 0; 0xe0 + ch],
          {| running_status_ := 0xe0 + ch;
             data_ := <[1%nat := d1]> (<[0%nat := d0]> (data_ p));
             data_size_ := 0;
             expected_data_size_ := 2 |},
          implicit_end p ++ [PitchBend ch (d0 + 128 * d1)]).
Proof.
  intros Hp Hch Hcc Hd0 Hd1.
  rewrite (feed_channel_pair p 0xe0 ch d0 d1); try assumption; try lia.
  - do 3 f_equal. unfold dispatch. simpl.
    rewrite Z.shiftl_mul_pow2 by lia. change (2 ^ 7) with 128.
    rewrite Z.mod_small by lia. do 2 f_equal. lia.
  - simpl. tauto.
  - apply (inv_array p (reachable_inv p Hp)).
Qed.

(** X9.  Control change on an accepted channel: a controller below [0x78]
    makes the call [ControlChange(ch, d0, d1)]; a controller in
    [0x78..0x7f] makes the channel mode call of its rank instead, and never
    [ControlChange]. *)
Theorem X9_control_change_or_channel_mode (D : Device)
    (p : MidiStreamParser) (ch d0 d1 : Z) :
  reachable p ->
  0 <= ch < 16 ->
  CheckChannel ch <> 0 ->
  0 <= d0 < 0x80 -> 0 <= d1 < 0x80 ->
  feed p [0xb0 + ch; d0; d1] =
    Some ([0; 0; 0xb0 + ch],
          {| running_status_ := 0xb0 + ch;
             data_ := <[1%nat := d1]> (<[0%nat := d0]> (data_ p));
             data_size_ := 0;
             expected_data_size_ := 2 |},
          implicit_end p ++
            [if d0 <? 0x78 then ControlChange ch d0 d1
             else nth (Z.to_nat (d0 - 0x78)) (channel_mode_calls ch d1)
                    (PolyModeOn ch)]).
Proof.
  intros Hp Hch Hcc Hd0 Hd1.
  rewrite (feed_channel_pair p 0xb0 ch d0 d1); try assumption; try lia.
  - do 3 f_equal. change (dispatch 0xb0 ch d0 d1) with (control_change ch d0 d1).
    destruct (d0 <? 0x78) eqn:E.
    + unfold control_change.
      repeat match goal with
             | |- context [if ?c then _ else _] => destruct c eqn:?
             end; try lia; reflexivity.
    + each_byte d0 0x78 8%nat; reflexivity.
  - simpl. tauto.
  - apply (inv_array p (reachable_inv p Hp)).
Qed.

(** X10.  Note off and polyphonic aftertouch on an accepted channel pass
    their two data bytes through as they are: [0x80 + ch] makes the call
    [NoteOff(ch, d0, d1)], velocity 0 included, and [0xa0 + ch] the call
    [Aftertouch(ch, d0, d1)]. *)
Theorem X10_note_off_and_aftertouch (D : Device) (p : MidiStreamParser)
    (ch d0 d1 : Z) :
  reachable p ->
  0 <= ch < 16 ->
  CheckChannel ch <> 0 ->
  0 <= d0 < 0x80 -> 0 <= d1 < 0x80 ->
  calls_of (feed p [0x80 + ch; d0; d1])
    = Some (implicit_end p ++ [NoteOff ch d0 d1]) /\
  calls_of (feed p [0xa0 + ch; d0; d1])
    = Some (implicit_end p ++ [Aftertouch ch d0 d1]).
Proof.
  intros Hp Hch Hcc Hd0 Hd1.
  pose proof (inv_array p (reachable_inv p Hp)) as Harr.
  assert (H80 : In 0x80 [0x80; 0x90; 0xa0; 0xb0; 0xe0]) by (simpl; tauto).
  assert (Ha0 : In 0xa0 [0x80; 0x90; 0xa0; 0xb0; 0xe0]) by (simpl; tauto).
  rewrite (feed_channel_pair p 0x80 ch d0 d1 H80 Hch Hcc Harr) by lia.
  rewrite (feed_channel_pair p 0xa0 ch d0 d1 Ha0 Hch Hcc Harr) by lia.
  split; reflexivity.
Qed.

(** X11.  Program change and channel aftertouch take one data byte, and the
    status stays as running status: after [0xc0 + ch] every data byte makes
    one call [ProgramChange(ch, d)], after [0xd0 + ch] one call
    [Aftertouch(ch, d)], each returning the status. *)
Theorem X11_one_byte_messages_repeat (D : Device) (p : MidiStreamParser)
    (ch : Z) (payload : list Z) :
  reachable p ->
  0 <= ch < 16 ->
  CheckChannel ch <> 0 ->
  Forall (fun d => d < 0x80) payload ->
  (exists p',
     feed p ((0xc0 + ch) :: payload) =
       Some (0 :: map (fun _ => 0xc0 + ch) payload, p',
             implicit_end p ++ map (ProgramChange ch) payload)) /\
  (exists p',
     feed p ((0xd0 + ch) :: payload) =
       Some (0 :: map (fun _ => 0xd0 + ch) payload, p',
             implicit_end p ++ map (AftertouchChannel ch) payload)).
Proof.
  intros Hp Hch Hcc Hpayload.
  pose proof (inv_array p (reachable_inv p Hp)) as Harr.
  assert (Hone : forall hi f,
    In hi [0xc0; 0xd0] ->
    (forall d0 d1, dispatch hi ch d0 d1 = [f d0]) ->
    exists p',
      feed p ((hi + ch) :: payload) =
        Some (0 :: map (fun _ => hi + ch) payload, p',
              implicit_end p ++ map f payload)).
  { intros hi f Hhi Hf.
    assert (Hhi7 : In hi [0x80; 0x90; 0xa0; 0xb0; 0xc0; 0xd0; 0xe0]).
    { simpl in *. tauto. }
    assert (Hst : 0x80 <= hi + ch < 0xf0 /\ spec_expected_count (hi + ch) = 1).
    { simpl in Hhi. unfold spec_expected_count.
      repeat match goal with
             | |- context [if ?c then _ else _] => destruct c eqn:?
             end; lia. }
    destruct Hst as [Hst Hcount].
    rewrite feed_cons, push_channel_status, Hcount by exact Hst.
    match goal with |- context [feed ?q payload] =>
      destruct (feed_one_byte_messages f (hi + ch) payload
                  ltac:(lia)
                  ltac:(intros q'; rewrite MessageReceived_channel_status
                          by assumption; apply Hf)
                  Hpayload q Harr eq_refl eq_refl eq_refl)
        as (p' & Hfeed & _)
    end.
    rewrite Hfeed. exists p'. reflexivity. }
  split; apply Hone; try (simpl; tauto); intros d0 d1; reflexivity.
Qed.


(** X13.  With no running status every data byte of a stream is an orphan:
    one call [BozoByte(d)] per byte, in order, each returning 0, and there
    is still no running status afterwards. *)
Theorem X13_orphan_bytes_in_order (D : Device) (p : MidiStreamParser)
    (payload : list Z) :
  reachable p ->
  running_status_ p = 0 ->
  Forall (fun d => 0 <= d < 0x80) payload ->
  exists p',
    feed p payload
      = Some (map (fun _ => 0) payload, p', map BozoByte payload) /\
    running_status_ p' = 0.
Proof.
  intros Hp Hrs Hpayload.
  destruct (feed_orphans payload Hpayload p (reachable_inv p Hp) Hrs)
    as (p' & Hfeed & _ & Hrs').
  exists p'. split; assumption.
Qed.

(** X14.  Under the running status of a channel the device rejects, no
    number of data bytes makes a call, and the status stays. *)
Theorem X14_rejected_channel_silent (D : Device) (p : MidiStreamParser)
    (payload : list Z) :
  reachable p ->
  0x80 <= running_status_ p < 0xf0 ->
  CheckChannel (Z.land (running_status_ p) 0x0f) = 0 ->
  Forall (fun d => 0 <= d < 0x80) payload ->
  exists vs p',
    feed p payload = Some (vs, p', []) /\
    running_status_ p' = running_status_ p.
Proof.
  intros Hp Hrs Hcc Hpayload.
  exact (feed_rejected payload Hpayload p (reachable_inv p Hp) Hrs Hcc).
Qed.

(** X15.  The system common statuses [0xf1], [0xf2] and [0xf3] take their
    data bytes (two, two and one) without a call of their own; the last one
    returns the status, which is then dropped. *)
Theorem X15_system_common_consumed (D : Device) (p : MidiStreamParser)
    (st d0 d1 : Z) :
  reachable p ->
  st = 0xf1 \/ st = 0xf2 ->
  0 <= d0 < 0x80 -> 0 <= d1 < 0x80 ->
  feed p [st; d0; d1] =
    Some ([0; 0; st],
          {| running_status_ := 0;
             data_ := <[1%nat := d1]> (<[0%nat := d0]> (data_ p));
             data_size_ := 0;
             expected_data_size_ := 0 |},
          implicit_end p) /\
  feed p [0xf3; d0] =
    Some ([0; 0xf3],
          {| running_status_ := 0;
             data_ := <[0%nat := d0]> (data_ p);
             data_size_ := 0;
             expected_data_size_ := 0 |},
          implicit_end p).
Proof.
  intros Hp Hst Hd0 Hd1.
  pose proof (inv_array p (reachable_inv p Hp)) as Harr.
  split.
  - assert (Hcount : spec_expected_count st = 2)
      by (destruct Hst as [-> | ->]; reflexivity).
    rewrite feed_cons, push_status_byte, Hcount by lia.
    assert (H4 : (0xf4 <=? st) = false) by lia.
    assert (H0 : (st =? 0xf0) = false) by lia.
    assert (H7 : (st =? 0xf7) = false) by lia.
    rewrite H4, H0, H7, !app_nil_r.
    match goal with |- context [feed ?q [d0; d1]] =>
      destruct (feed_data_pair q d0 d1) as (Hfeed & _);
        cbn [running_status_ data_ data_size_ expected_data_size_] in *;
        try reflexivity; try assumption; try lia
    end.
    rewrite Hfeed.
    assert (Hone : (st >? 0xf0) = true) by lia. rewrite Hone.
    rewrite MessageReceived_system_common by lia.
    rewrite app_nil_r. reflexivity.
  - rewrite feed_cons, push_status_byte by lia.
    change (0xf4 <=? 0xf3) with false. cbv iota.
    change (spec_expected_count 0xf3) with 1.
    rewrite feed_cons, PushByte_data, push_data_bounds
      by (cbn [running_status_ data_ data_size_ expected_data_size_]; lia).
    cbn [mbind option_bind]. unfold complete.
    cbn [running_status_ data_ data_size_ expected_data_size_].
    change (0 + 1 >=? 1) with true. cbv iota beta.
    change (0xf3 >? 0xf0) with true. cbv iota.
    rewrite MessageReceived_system_common by lia.
    cbn [feed]. rewrite !app_nil_r. reflexivity.
Qed.


(** ** The further properties at concrete inputs *)

Lemma X1_uninitialised_buffer_unobserved_witness :
  exists vs t p q,
    feed (D := MidiDevice) (new_parser 0 0 0) [0x90; 0x3c; 0x40]
      = Some (vs, p, t) /\
    feed (D := MidiDevice) (new_parser 1 2 3) [0x90; 0x3c; 0x40]
      = Some (vs, q, t) /\
    same_progress p q.
Proof.
  apply (X1_uninitialised_buffer_unobserved MidiDevice 0 0 0 1 2 3).
  literal_bytes.
Defined.

Lemma X2_status_byte_resynchronises_witness :
  exists vs t p' q',
    feed (D := MidiDevice) sysex_open [0xb0; 0x07; 0x64]
      = Some (vs, p', [SysExEnd] ++ t) /\
    feed (D := MidiDevice) note_pending [0xb0; 0x07; 0x64]
      = Some (vs, q', [] ++ t) /\
    same_progress p' q'.
Proof.
  apply (X2_status_byte_resynchronises MidiDevice sysex_open note_pending
           0xb0 [0x07; 0x64]).
  - apply sysex_open_reachable.
  - apply note_pending_reachable.
  - lia.
  - literal_bytes.
Defined.

Lemma X4_calls_on_accepted_channels_witness :
  exists vs p' t,
    feed (D := SingleChannelDevice 5) (new_parser 0 0 0)
      [0x95; 0x3c; 0x40; 0x90; 0x3c; 0x40] = Some (vs, p', t) /\
    Forall (fun c => forall ch, call_channel c = Some ch ->
                                0 <= ch < 16 /\
                                CheckChannel (Device := SingleChannelDevice 5) ch
                                  <> 0) t.
Proof.
  apply (X4_calls_on_accepted_channels (SingleChannelDevice 5)
           (new_parser 0 0 0)).
  - apply reachable_new.
  - literal_bytes.
Defined.

Lemma X5_sysex_calls_bracketed_witness :
  exists vs p' t,
    feed (D := MidiDevice) (new_parser 0 0 0) [0xf0; 0x01; 0x02; 0xf7]
      = Some (vs, p', t) /\
    sysex_track false t = Some (running_status_ p' =? 0xf0).
Proof.
  apply (X5_sysex_calls_bracketed MidiDevice (new_parser 0 0 0)).
  - apply reachable_new.
  - literal_bytes.
Defined.

Lemma X6_state_between_calls_witness :
  (running_status_ note_pending = 0 /\ data_size_ note_pending = 0 /\
   expected_data_size_ note_pending = 0) \/
  (0x80 <= running_status_ note_pending <= 0xf3 /\
   expected_data_size_ note_pending
     = spec_expected_count (running_status_ note_pending) /\
   1 <= expected_data_size_ note_pending <= 2 /\
   0 <= data_size_ note_pending < expected_data_size_ note_pending).
Proof.
  apply (X6_state_between_calls MidiDevice note_pending).
  apply note_pending_reachable.
Defined.

Lemma X7_returned_value_is_status_witness :
  exists v p' t,
    PushByte (D := MidiDevice) note_pending 0x40 = Some (v, p', t) /\
    (v = 0 \/
     (0xf4 <= 0x40 /\ v = 0x40) \/
     (0x40 < 0x80 /\ v = 0x90 /\ 0x80 <= v <= 0xf3)).
Proof.
  apply (X7_returned_value_is_status MidiDevice note_pending 0x40).
  - apply note_pending_reachable.
  - unfold is_byte. lia.
Defined.

Lemma X8_pitch_bend_value_witness :
  feed (D := MidiDevice) (new_parser 0 0 0) [0xe0; 0x00; 0x40] =
    Some ([0; 0; 0xe0],
          {| running_status_ := 0xe0;
             data_ := [0x00; 0x40; 0];
             data_size_ := 0;
             expected_data_size_ := 2 |},
          [PitchBend 0 8192]).
Proof.
  apply (X8_pitch_bend_value MidiDevice (new_parser 0 0 0) 0 0x00 0x40).
  - apply reachable_new.
  - lia.
  - simpl. lia.
  - lia.
  - lia.
Defined.

Lemma X9_control_change_or_channel_mode_witness :
  feed (D := MidiDevice) (new_parser 0 0 0) [0xb0; 0x78; 0x00] =
    Some ([0; 0; 0xb0],
          {| running_status_ := 0xb0;
             data_ := [0x78; 0x00; 0];
             data_size_ := 0;
             expected_data_size_ := 2 |},
          [AllSoundOff 0]).
Proof.
  apply (X9_control_change_or_channel_mode MidiDevice (new_parser 0 0 0)
           0 0x78 0x00).
  - apply reachable_new.
  - lia.
  - simpl. lia.
  - lia.
  - lia.
Defined.

Lemma X10_note_off_and_aftertouch_witness :
  calls_of (feed (D := MidiDevice) sysex_open [0x81; 0x3c; 0x00])
    = Some [SysExEnd; NoteOff 1 0x3c 0x00] /\
  calls_of (feed (D := MidiDevice) sysex_open [0xa1; 0x3c; 0x00])
    = Some [SysExEnd; Aftertouch 1 0x3c 0x00].
Proof.
  apply (X10_note_off_and_aftertouch MidiDevice sysex_open 1 0x3c 0x00).
  - apply sysex_open_reachable.
  - lia.
  - simpl. lia.
  - lia.
  - lia.
Defined.

Lemma X11_one_byte_messages_repeat_witness :
  (exists p',
     feed (D := MidiDevice) (new_parser 0 0 0) [0xc2; 0x05; 0x06] =
       Some ([0; 0xc2; 0xc2], p', [ProgramChange 2 5; ProgramChange 2 6])) /\
  (exists p',
     feed (D := MidiDevice) (new_parser 0 0 0) [0xd2; 0x05; 0x06] =
       Some ([0; 0xd2; 0xd2], p',
             [AftertouchChannel 2 5; AftertouchChannel 2 6])).
Proof.
  apply (X11_one_byte_messages_repeat MidiDevice (new_parser 0 0 0) 2
           [0x05; 0x06]).
  - apply reachable_new.
  - lia.
  - simpl. lia.
  - literal_bytes.
Defined.


Lemma X13_orphan_bytes_in_order_witness :
  exists p',
    feed (D := MidiDevice) (new_parser 0 0 0) [0x01; 0x02]
      = Some ([0; 0], p', [BozoByte 1; BozoByte 2]) /\
    running_status_ p' = 0.
Proof.
  apply (X13_orphan_bytes_in_order MidiDevice (new_parser 0 0 0)
           [0x01; 0x02]).
  - apply reachable_new.
  - reflexivity.
  - literal_bytes.
Defined.

Lemma X14_rejected_channel_silent_witness :
  exists vs p',
    feed (D := SingleChannelDevice 5) note_pending [0x40; 0x3c; 0x40]
      = Some (vs, p', []) /\
    running_status_ p' = 0x90.
Proof.
  apply (X14_rejected_channel_silent (SingleChannelDevice 5) note_pending
           [0x40; 0x3c; 0x40]).
  - apply note_pending_reachable.
  - simpl. lia.
  - reflexivity.
  - literal_bytes.
Defined.

Lemma X15_system_common_consumed_witness :
  feed (D := MidiDevice) (new_parser 0 0 0) [0xf2; 0x01; 0x02] =
    Some ([0; 0; 0xf2],
          {| running_status_ := 0;
             data_ := [0x01; 0x02; 0];
             data_size_ := 0;
             expected_data_size_ := 0 |},
          []) /\
  feed (D := MidiDevice) (new_parser 0 0 0) [0xf3; 0x01] =
    Some ([0; 0xf3],
          {| running_status_ := 0;
             data_ := [0x01; 0; 0];
             data_size_ := 0;
             expected_data_size_ := 0 |},
          []).
Proof.
  apply (X15_system_common_consumed MidiDevice (new_parser 0 0 0)
           0xf2 0x01 0x02).
  - apply reachable_new.
  - right. reflexivity.
  - lia.
  - lia.
Defined.


(** ** The parser against the framing of the spec *)

Section Framing.

Context {D : Device}.

Lemma spec_expected_count_one_shot (b : Z) :
  0xf4 <= b -> spec_expected_count b = 0.
Proof.
  intros Hb. unfold spec_expected_count.
  repeat match goal with
         | |- context [if ?c then _ else _] => destruct c eqn:?
         end; lia.
Qed.

(** One byte: the parser returns the value the framing asks for, and its
    running status and received count follow the framing. *)
Lemma PushByte_frame (p : MidiStreamParser) (f : framing) (b : Z) :
  buffer_inv p ->
  running_status_ p = frame_status f ->
  data_size_ p = frame_received f ->
  is_byte b ->
  exists p' t,
    PushByte p b = Some (frame_value f b, p', t) /\
    running_status_ p' = frame_status (frame_step f b) /\
    data_size_ p' = frame_received (frame_step f b).
Proof.
  intros [Hinv Hstat _] Hrs Hds Hb. unfold is_byte in Hb.
  unfold frame_value, frame_step, frame_completes, frame_message_status.
  destruct (0xf8 <=? b) eqn:Ert.
  { rewrite PushByte_realtime by lia. eauto. }
  destruct (0x80 <=? b) eqn:Est.
  - rewrite push_status_byte by lia.
    destruct (0xf4 <=? b) eqn:E4.
    + rewrite spec_expected_count_one_shot by lia.
      change (0 =? 0) with true. cbv iota.
      destruct (0xf0 <? b) eqn:E0; [|lia].
      do 2 eexists. repeat split; reflexivity.
    + destruct (spec_expected_count b =? 0) eqn:E0.
      { assert (spec_expected_count b = 0) as H0 by lia.
        apply spec_expected_count_zero in H0. lia. }
      do 2 eexists. repeat split; reflexivity.
  - rewrite PushByte_data, (push_data_inv p b Hinv) by lia. simpl.
    unfold complete. simpl.
    pose proof Hinv as [Harr Hpos Hle Hexp Hpend Hnone Hst].
    rewrite <- Hrs, <- Hds.
    destruct (running_status_ p =? 0) eqn:E0.
    + assert (H0 : running_status_ p = 0) by lia.
      specialize (Hnone H0).
      destruct (data_size_ p + 1 >=? expected_data_size_ p) eqn:E; [|lia].
      destruct (running_status_ p >? 0xf0) eqn:Egt; [lia|].
      rewrite H0. do 2 eexists. split; [reflexivity|]. simpl. lia.
    + destruct (Hst ltac:(lia)) as [Hrange Hcount]. rewrite <- Hcount.
      simpl.
      destruct (data_size_ p + 1 >=? expected_data_size_ p) eqn:E;
        destruct (expected_data_size_ p <=? data_size_ p + 1) eqn:E';
        try lia.
      * destruct (running_status_ p >? 0xf0) eqn:Egt;
          destruct (0xf0 <? running_status_ p) eqn:Egt'; try lia;
          do 2 eexists; repeat split; reflexivity.
      * do 2 eexists. repeat split; reflexivity.
Qed.

Lemma feed_frame (bytes : list Z) :
  Forall is_byte bytes ->
  forall p f,
    buffer_inv p ->
    running_status_ p = frame_status f ->
    data_size_ p = frame_received f ->
    exists vs p' t,
      feed p bytes = Some (vs, p', t) /\
      buffer_inv p' /\
      running_status_ p' = frame_status (fold_left frame_step bytes f) /\
      data_size_ p' = frame_received (fold_left frame_step bytes f).
Proof.
  induction 1 as [|b bytes Hb _ IH]; intros p f Hp Hrs Hds.
  - exists [], p, []. split; [reflexivity|]. split; [exact Hp|].
    split; assumption.
  - destruct (PushByte_frame p f b Hp Hrs Hds Hb)
      as (p1 & t1 & Hpush & Hrs1 & Hds1).
    destruct (IH p1 (frame_step f b)
                (PushByte_buffer_inv p b _ p1 t1 Hp Hb Hpush) Hrs1 Hds1)
      as (vs & p2 & t2 & Hfeed & Hrest).
    rewrite feed_cons, Hpush, Hfeed. simpl. eauto.
Qed.

End Framing.

(** C5.  After any bytes pushed since construction, [PushByte] returns for
    the next byte what section 4.1 asks, the framing of the messages being
    computed from the bytes alone: the byte itself for a realtime byte; the
    status byte of the message, a value in [0x80..0xf7], when the byte
    completes one; and 0 when it does not. *)
Theorem C5_returned_value (D : Device) (g0 g1 g2 : Z) (bytes : list Z)
    (b : Z) :
  Forall is_byte bytes ->
  is_byte b ->
  exists vs p t p' t',
    feed (new_parser g0 g1 g2) bytes = Some (vs, p, t) /\
    PushByte p b = Some (frame_value (frame_after bytes) b, p', t') /\
    (0xf8 <= b -> frame_value (frame_after bytes) b = b) /\
    (b < 0xf8 -> frame_completes (frame_after bytes) b = true ->
     frame_value (frame_after bytes) b
       = frame_message_status (frame_after bytes) b /\
     0x80 <= frame_message_status (frame_after bytes) b <= 0xf7) /\
    (b < 0xf8 -> frame_completes (frame_after bytes) b = false ->
     frame_value (frame_after bytes) b = 0).
Proof.
  intros Hbytes Hb.
  destruct (feed_frame bytes Hbytes (new_parser g0 g1 g2) no_frame
              (new_parser_buffer_inv g0 g1 g2) eq_refl eq_refl)
    as (vs & p & t & Hfeed & Hp & Hrs & Hds).
  fold (frame_after bytes) in Hrs, Hds.
  destruct (PushByte_frame p (frame_after bytes) b Hp Hrs Hds Hb)
    as (p' & t' & Hpush & _).
  exists vs, p, t, p', t'.
  split; [exact Hfeed|]. split; [exact Hpush|].
  unfold frame_value. unfold is_byte in Hb.
  split; [|split].
  - intros Hrt. destruct (0xf8 <=? b) eqn:E; [reflexivity | lia].
  - intros Hlt Hcomp. destruct (0xf8 <=? b) eqn:E; [lia|].
    rewrite Hcomp. split; [reflexivity|].
    unfold frame_completes, frame_message_status in *.
    destruct (0x80 <=? b) eqn:Est; [lia|].
    rewrite <- Hrs in *.
    destruct (inv_status p (binv_inv p Hp)) as [Hrange _]; lia.
  - intros Hlt Hcomp. destruct (0xf8 <=? b) eqn:E; [lia|].
    rewrite Hcomp. reflexivity.
Qed.

Lemma C5_returned_value_witness :
  frame_after [0xf6] = no_frame /\
  frame_completes (frame_after [0xf6]) 0x40 = false /\
  frame_completes (frame_after [0x90; 0x3c]) 0x40 = true /\
  (exists vs p t p' t',
     feed (D := MidiDevice) (new_parser 0 0 0) [0xf6] = Some (vs, p, t) /\
     PushByte (D := MidiDevice) p 0x40 = Some (0, p', t')) /\
  (exists vs p t p' t',
     feed (D := MidiDevice) (new_parser 0 0 0) [0x90; 0x3c] = Some (vs, p, t) /\
     PushByte (D := MidiDevice) p 0x40 = Some (0x90, p', t')).
Proof.
  split; [reflexivity|]. split; [reflexivity|]. split; [reflexivity|].
  split.
  - destruct (C5_returned_value MidiDevice 0 0 0 [0xf6] 0x40)
      as (vs & p & t & p' & t' & Hfeed & Hpush & _).
    + literal_bytes.
    + unfold is_byte. lia.
    + exists vs, p, t, p', t'. split; [exact Hfeed | exact Hpush].
  - destruct (C5_returned_value MidiDevice 0 0 0 [0x90; 0x3c] 0x40)
      as (vs & p & t & p' & t' & Hfeed & Hpush & _).
    + literal_bytes.
    + unfold is_byte. lia.
    + exists vs, p, t, p', t'. split; [exact Hfeed | exact Hpush].
Defined.

(** ** The data arguments of the calls *)

Section Provenance.

Context {D : Device}.

(** The outer switch passes on [d0] and [d1] and nothing else; the zero
    velocity of line 179 is [d1]. *)
Lemma dispatch_data (hi lo d0 d1 : Z) (c : call) (x : Z) :
  0 <= d0 < 0x80 -> 0 <= d1 < 0x80 ->
  In c (dispatch hi lo d0 d1) ->
  In x (call_data c) ->
  x = d0 \/ x = d1.
Proof.
  intros H0 H1.
  assert (Hbend : (Z.shiftl d1 7 + d0) mod 65536 = d0 + 128 * d1).
  { rewrite Z.shiftl_mul_pow2 by lia. change (2 ^ 7) with 128.
    rewrite Z.mod_small; lia. }
  assert (Hlow : (d0 + 128 * d1) mod 128 = d0).
  { replace (d0 + 128 * d1) with (d0 + d1 * 128) by lia.
    rewrite Z.mod_add by lia. apply Z.mod_small. lia. }
  assert (Hhigh : (d0 + 128 * d1) / 128 = d1).
  { replace (d0 + 128 * d1) with (d0 + d1 * 128) by lia.
    rewrite Z.div_add by lia. rewrite Z.div_small by lia. lia. }
  unfold dispatch, control_change, system_message.
  repeat match goal with
         | |- context [if ?c then _ else _] => destruct c eqn:?
         end;
    simpl; intros Hc Hx;
    repeat match goal with
           | H : _ \/ _ |- _ => destruct H as [<- | H]
           | H : False |- _ => destruct H
           end;
    simpl in Hx; rewrite ?Hbend, ?Hlow, ?Hhigh in Hx;
    repeat match goal with
           | H : _ \/ _ |- _ => destruct H as [<- | H]
           | H : False |- _ => destruct H
           end;
    try (left; reflexivity); try (right; reflexivity); right; lia.
Qed.

(** A status that expects one data byte passes on [d0] only. *)
Lemma dispatch_short_data (hi lo d0 d1 : Z) (c : call) (x : Z) :
  hi = 0xc0 \/ hi = 0xd0 \/ hi = 0xf0 ->
  In c (dispatch hi lo d0 d1) ->
  In x (call_data c) ->
  x = d0.
Proof.
  intros [-> | [-> | ->]].
  - intros [<- | []] [<- | []]. reflexivity.
  - intros [<- | []] [<- | []]. reflexivity.
  - change (dispatch 0xf0 lo d0 d1) with (system_message lo d0).
    unfold system_message.
    repeat match goal with
           | |- context [if ?c then _ else _] => destruct c
           end;
      simpl; intros Hc Hx;
      repeat match goal with
             | H : _ \/ _ |- _ => destruct H as [<- | H]
             | H : False |- _ => destruct H
             end;
      simpl in Hx;
      repeat match goal with
             | H : _ \/ _ |- _ => destruct H as [<- | H]
             | H : False |- _ => destruct H
             end; reflexivity.
Qed.

Lemma MessageReceived_data_args (q : MidiStreamParser) (st : Z)
    (c : call) (x : Z) :
  st = 0 \/ 0x80 <= st < 0xf8 ->
  0 <= data_at q 0 < 0x80 ->
  (0x80 <= st -> spec_expected_count st = 2 -> 0 <= data_at q 1 < 0x80) ->
  In c (MessageReceived q st) ->
  In x (call_data c) ->
  x = data_at q 0 \/
  (0x80 <= st /\ spec_expected_count st = 2 /\ x = data_at q 1).
Proof.
  intros [-> | Hst] H0 H1.
  - rewrite MessageReceived_no_status.
    intros [<- | []] [<- | []]. left. reflexivity.
  - unfold MessageReceived.
    destruct (st =? 0) eqn:E0; [lia|].
    match goal with |- context [if ?c then _ else _] => destruct c end;
      [intros []|].
    simpl. intros Hc Hx.
    destruct (Z.eq_dec (spec_expected_count st) 2) as [H2 | H2].
    + destruct (dispatch_data _ _ _ _ c x H0 (H1 ltac:(lia) H2) Hc Hx)
        as [-> | ->]; [left; reflexivity | right].
      split; [lia | split; [exact H2 | reflexivity]].
    + left.
      exact (dispatch_short_data _ _ _ _ c x
               (short_status_high_nibble st Hst H2) Hc Hx).
Qed.

(** One step: each data argument is the byte pushed, or the data byte that
    was waiting in [data_[0]]. *)
Lemma PushByte_calls_data (p : MidiStreamParser) (b v : Z) p' t :
  buffer_inv p -> is_byte b ->
  PushByte p b = Some (v, p', t) ->
  forall c x, In c t -> In x (call_data c) ->
    0 <= x < 0x80 /\
    (x = b \/ (data_size_ p = 1 /\ x = data_at p 0)).
Proof.
  intros [Hp Hps Hpf] Hb Hpush c x Hc Hx. unfold is_byte in Hb.
  destruct (Z_le_gt_dec 0xf8 b) as [Hrt | Hrt].
  { rewrite PushByte_realtime, MessageReceived_realtime in Hpush by lia.
    injection Hpush as _ _ <-. unfold realtime_call in Hc.
    repeat match type of Hc with
           | context [if ?k then _ else _] => destruct k
           end; simpl in Hc;
      repeat match goal with
             | H : _ \/ _ |- _ => destruct H as [<- | H]
             | H : False |- _ => destruct H
             end; destruct Hx. }
  destruct (Z_le_gt_dec 0x80 b) as [Hst | Hst].
  { rewrite push_status_byte in Hpush by lia.
    injection Hpush as _ _ <-. unfold implicit_end in Hc.
    repeat match type of Hc with
           | context [if ?k then _ else _] => destruct k
           end; simpl in Hc;
      repeat match goal with
             | H : _ \/ _ |- _ => destruct H as [<- | H]
             | H : False |- _ => destruct H
             end; destruct Hx. }
  rewrite PushByte_data, (push_data_inv p b Hp) in Hpush by lia.
  simpl in Hpush. unfold complete in Hpush. simpl in Hpush.
  pose proof Hp as [Harr Hpos Hle Hexp Hpend Hnone Hstat].
  destruct (data_at_store p b (running_status_ p) (data_size_ p + 1)
              (expected_data_size_ p) Harr ltac:(lia)) as [Hp0 Hp1].
  simpl in Hp0, Hp1.
  destruct (data_size_ p + 1 >=? expected_data_size_ p) eqn:E;
    injection Hpush as _ _ <-; [|destruct Hc].
  assert (Hcount : 0x80 <= running_status_ p ->
                   spec_expected_count (running_status_ p) = 2 ->
                   data_size_ p = 1).
  { intros H80 H2. destruct Hstat as [_ Hcount]; lia. }
  apply MessageReceived_data_args with (x := x) in Hc; try exact Hx.
  - rewrite Hp0, Hp1 in Hc.
    destruct Hc as [-> | (H80 & H2 & ->)].
    + destruct (data_size_ p =? 0) eqn:E0; [split; [lia | left; reflexivity]|].
      assert (Hone : data_size_ p = 1) by lia.
      split; [apply Hpf; lia | right; split; [exact Hone | reflexivity]].
    + rewrite (Hcount H80 H2). simpl. split; [lia | left; reflexivity].
  - exact (status_of_inv p Hp).
  - rewrite Hp0. destruct (data_size_ p =? 0) eqn:E0; [lia|].
    apply Hpf. lia.
  - intros H80 H2. rewrite Hp1, (Hcount H80 H2). simpl. lia.
Qed.

(** The data byte waiting in [data_[0]] is the last byte pushed below
    [0xf8]. *)
Lemma feed_last_pushed (bytes : list Z) :
  Forall is_byte bytes ->
  forall p last,
    buffer_inv p ->
    (data_size_ p = 1 -> last = Some (data_at p 0)) ->
    exists vs p' t,
      feed p bytes = Some (vs, p', t) /\
      buffer_inv p' /\
      (data_size_ p' = 1 ->
       last_pushed_from last bytes = Some (data_at p' 0)).
Proof.
  induction 1 as [|b bytes Hb _ IH]; intros p last Hp Hlast.
  - exists [], p, []. split; [reflexivity|]. split; [exact Hp | exact Hlast].
  - destruct (PushByte_total p b (binv_inv p Hp)) as (v & p1 & t1 & Hpush).
    pose proof (PushByte_buffer_inv p b v p1 t1 Hp Hb Hpush) as Hp1.
    destruct (IH p1 (if b <? 0xf8 then Some b else last) Hp1)
      as (vs & p2 & t2 & Hfeed & Hp2 & Hlast2).
    + unfold is_byte in Hb.
      destruct (Z_le_gt_dec 0xf8 b) as [Hrt | Hrt].
      { rewrite PushByte_realtime in Hpush by lia.
        injection Hpush as _ <- _.
        destruct (b <? 0xf8) eqn:E; [lia | exact Hlast]. }
      destruct (b <? 0xf8) eqn:Elt; [|lia].
      destruct (Z_le_gt_dec 0x80 b) as [Hst | Hst].
      { rewrite push_status_byte in Hpush by lia.
        injection Hpush as _ <- _. simpl. lia. }
      pose proof (binv_inv p Hp) as [Harr Hpos Hle Hexp Hpend Hnone Hstat].
      rewrite PushByte_data, (push_data_inv p b (binv_inv p Hp)) in Hpush
        by lia.
      simpl in Hpush. unfold complete in Hpush. simpl in Hpush.
      destruct (data_at_store p b (running_status_ p) (data_size_ p + 1)
                  (expected_data_size_ p) Harr ltac:(lia)) as [H0 _].
      simpl in H0.
      destruct (data_size_ p + 1 >=? expected_data_size_ p) eqn:E;
        injection Hpush as _ <- _;
        cbn [running_status_ data_ data_size_ expected_data_size_]; [lia|].
      intros Hone. rewrite H0.
      destruct (data_size_ p =? 0) eqn:E0; [reflexivity | lia].
    + exists (v :: vs), p2, (t1 ++ t2).
      rewrite feed_cons, Hpush, Hfeed.
      split; [reflexivity|]. split; [exact Hp2 | exact Hlast2].
Qed.

End Provenance.

(** X3.  After any bytes pushed since construction, each data argument of
    each call [PushByte] makes for the next byte [b] (note, velocity,
    controller, value, program, SysEx byte, orphan byte, and the two 7-bit
    halves of the pitch bend) is in [0..127] and is [b] itself or the last
    byte below [0xf8] pushed before [b]. *)
Theorem X3_call_arguments_received (D : Device) (g0 g1 g2 : Z)
    (bytes : list Z) (b : Z) :
  Forall is_byte bytes ->
  is_byte b ->
  exists vs p t v p' t',
    feed (new_parser g0 g1 g2) bytes = Some (vs, p, t) /\
    PushByte p b = Some (v, p', t') /\
    forall c x, In c t' -> In x (call_data c) ->
      0 <= x < 0x80 /\ (x = b \/ last_pushed bytes = Some x).
Proof.
  intros Hbytes Hb.
  destruct (feed_last_pushed bytes Hbytes (new_parser g0 g1 g2) None
              (new_parser_buffer_inv g0 g1 g2))
    as (vs & p & t & Hfeed & Hp & Hlast).
  { simpl. discriminate. }
  destruct (PushByte_total p b (binv_inv p Hp)) as (v & p' & t' & Hpush).
  exists vs, p, t, v, p', t'.
  split; [exact Hfeed|]. split; [exact Hpush|].
  intros c x Hc Hx.
  destruct (PushByte_calls_data p b v p' t' Hp Hb Hpush c x Hc Hx)
    as [Hrange [-> | [Hone ->]]].
  - split; [exact Hrange | left; reflexivity].
  - split; [exact Hrange | right; exact (Hlast Hone)].
Qed.

Lemma X3_call_arguments_received_witness :
  last_pushed [0x80; 0x3c; 0xf8] = Some 0x3c /\
  exists vs p t v p' t',
    feed (D := MidiDevice) (new_parser 0xff 0xff 0xff) [0x80; 0x3c; 0xf8]
      = Some (vs, p, t) /\
    PushByte (D := MidiDevice) p 0x10 = Some (v, p', t') /\
    forall c x, In c t' -> In x (call_data c) ->
      0 <= x < 0x80 /\
      (x = 0x10 \/ last_pushed [0x80; 0x3c; 0xf8] = Some x).
Proof.
  split; [reflexivity|].
  apply (X3_call_arguments_received MidiDevice 0xff 0xff 0xff
           [0x80; 0x3c; 0xf8] 0x10).
  - literal_bytes.
  - unfold is_byte. lia.
Defined.
